(* ===================================================================== *)
(* tutor/commands/compose.py and tutor/commands/dev.py                   *)
(*                                                                       *)
(* A shallow embedding of the compose job runner, of the `dev` profile   *)
(* and of the commands built on them (restart, dc, backup), with the     *)
(* properties of the layered file sets, of the assembled docker-compose  *)
(* argument vectors and of the backup pipeline.                          *)
(* ===================================================================== *)

From stdpp Require Import base gmap strings list pretty.
From Stdlib Require Import ZArith Ascii String.

Open Scope string_scope.
Open Scope list_scope.

(* --------------------------------------------------------------------- *)
(* Python primitives used by the two modules                             *)
(* --------------------------------------------------------------------- *)

Module Py.

(** Values a configuration key can hold (YAML scalars). *)
Inductive value : Type :=
| VStr (s : string)
| VBool (b : bool)
| VInt (z : Z).

(** [if v:] *)
Definition truthy (v : value) : bool :=
  match v with
  | VStr s => negb (String.eqb s "")
  | VBool b => b
  | VInt z => negb (Z.eqb z 0)
  end.

(** [str(v)], as performed by ["{}".format(v)] *)
Definition str (v : value) : string :=
  match v with
  | VStr s => s
  | VBool true => "True"
  | VBool false => "False"
  | VInt z => pretty z
  end.

(** The exceptions that travel through the modelled code.
    [OSError true _] is [FileNotFoundError], a subclass of [OSError]. *)
Inductive exn : Type :=
| TutorError (msg : string)
| KeyError (key : string)
| NotImplementedError
| OSError (enoent : bool) (strerror : string)
| NoCredentialsError
| OtherError (descr : string).

Definition is_OSError (e : exn) : bool :=
  match e with OSError _ _ => true | _ => false end.

Definition is_FileNotFoundError (e : exn) : bool :=
  match e with OSError true _ => true | _ => false end.

Definition is_NoCredentialsError (e : exn) : bool :=
  match e with NoCredentialsError => true | _ => false end.

Inductive result (A : Type) : Type :=
| Ok (a : A)
| Raise (e : exn).
Arguments Ok {A} a.
Arguments Raise {A} e.

(** [c in s] for a one-character needle. *)
Fixpoint has_char (c : ascii) (s : string) : bool :=
  match s with
  | EmptyString => false
  | String d rest => if Ascii.eqb c d then true else has_char c rest
  end.

(** [os.path.basename(p)]: the text after the last ["/"]. *)
Fixpoint basename (p : string) : string :=
  match p with
  | EmptyString => EmptyString
  | String c rest =>
      if has_char "/" rest then basename rest
      else if Ascii.eqb c "/" then rest
      else p
  end.

(** [x in xs] on a tuple of strings. *)
Definition str_in (x : string) (xs : list string) : bool :=
  bool_decide (x ∈ xs).

End Py.
Export Py.

Abbreviation Config := (gmap string value).

(* --------------------------------------------------------------------- *)
(* The world the commands run in                                         *)
(* --------------------------------------------------------------------- *)

(** What the process does to its surroundings, in the order it does it. *)
Inductive Event : Type :=
| EvDockerCompose (args : list string)          (* utils.docker_compose *)
| EvEcho (msg : string)                         (* fmt.echo_info(msg) *)
| EvEnsureDir (path : string)                   (* utils.ensure_file_directory_exists *)
| EvTarOpen (path : string)                     (* tarfile.open(path, 'w:gz') *)
| EvTarAdd (src arcname : string)               (* tar.add(src, arcname=arcname) *)
| EvTarClose (path : string)                    (* leaving the with block *)
| EvSubprocess (argv : list string)             (* subprocess.run(argv) *)
| EvRemove (path : string)                      (* os.remove(path) *)
| EvBotoClient (access secret : value)          (* boto3.client('s3', ...) *)
| EvUpload (path : string) (bucket : value) (key : string).
                                                (* s3.upload_file(path, bucket, key) *)

Record World : Type := mkWorld {
fs : gset string;        (* the paths that exist on the host *)
tty : bool;              (* utils.is_a_tty() *)
events : list Event      (* chronological *)
}.

Definition log (e : Event) (w : World) : World :=
mkWorld (fs w) (tty w) (events w ++ [e]).

Definition set_fs (s : gset string) (w : World) : World :=
mkWorld s (tty w) (events w).

(** Computations: read and change the world, return or raise. *)
Definition M (A : Type) : Type := World -> result A * World.

Definition ret {A} (a : A) : M A := fun w => (Ok a, w).
Definition raise {A} (e : exn) : M A := fun w => (Raise e, w).

Definition bind {A B} (m : M A) (k : A -> M B) : M B :=
fun w =>
  match m w with
  | (Ok a, w') => k a w'
  | (Raise e, w') => (Raise e, w')
  end.

(** [try: m  except <handles>: handler] *)
Definition try_except {A} (m : M A) (handles : exn -> bool) (handler : exn -> M A)
: M A :=
fun w =>
  match m w with
  | (Ok a, w') => (Ok a, w')
  | (Raise e, w') => if handles e then handler e w' else (Raise e, w')
  end.

(** [with ...: m], running [close] on the way out, raised or not. *)
Definition finally {A} (m : M A) (close : M unit) : M A :=
fun w =>
  match m w with
  | (r, w') =>
      match close w' with
      | (Ok _, w'') => (r, w'')
      | (Raise e, w'') => (Raise e, w'')
      end
  end.

Declare Scope m_scope.
Delimit Scope m_scope with M.
Notation "x <- c ;; k" := (bind c (fun x => k))
(at level 100, c at next level, right associativity) : m_scope.
Notation "c ;; k" := (bind c (fun _ => k))
(at level 100, right associativity) : m_scope.
Open Scope m_scope.

Definition of_result {A} (r : result A) : M A := fun w => (r, w).

(** [config[key]] *)
Definition getitem (config : Config) (key : string) : result value :=
match config !! key with
| Some v => Ok v
| None => Raise (KeyError key)
end.

(** [os.path.exists(path)] *)
Definition os_path_exists (path : string) : M bool :=
fun w => (Ok (bool_decide (path ∈ fs w)), w).

(** [utils.is_a_tty()] *)
Definition is_a_tty : M bool := fun w => (Ok (tty w), w).

(** [fmt.echo_info(msg)] *)
Definition echo_info (msg : string) : M unit :=
fun w => (Ok tt, log (EvEcho msg) w).

(* --------------------------------------------------------------------- *)
(* Collaborators that live outside compose.py and dev.py                 *)
(* --------------------------------------------------------------------- *)

(** The helpers imported from other modules of the package and the
  outcomes of the external programs and libraries.  Outcomes may depend
  on the arguments and on the files present when the call is made. *)
Class Externals : Type := {
(* tutor_env.pathjoin *)
pathjoin : string -> list string -> string;
(* tutor_env.data_path *)
data_path : string -> list string -> string;
(* tutor_env.root_dir(root) *)
root_dir : string -> string;
(* bindmounts.get_path(root, name) *)
get_path : string -> string -> string;
(* bindmounts.parse_volumes(args) *)
parse_volumes : list string -> result (list string * list string);
(* types.get_typed(config, key, str) *)
get_typed_str : Config -> string -> result string;
(* tutor_config.load(root) *)
config_load : string -> result Config;
(* utils.docker_compose: the exit code or an exception, and the
   files the tool leaves behind *)
run_docker_compose : list string -> gset string -> result Z * gset string;
(* utils.ensure_file_directory_exists(path) *)
run_ensure_dir : string -> gset string -> result unit * gset string;
(* does tarfile.open(path, 'w:gz') fail? *)
tar_open_error : string -> gset string -> option exn;
(* does tar.add(src, ...) fail? *)
tar_add_error : string -> gset string -> option exn;
(* subprocess.run(argv): raises only when the program cannot be started *)
run_subprocess : list string -> gset string -> result unit * gset string;
(* does os.remove(path) fail? *)
os_remove_error : string -> gset string -> option exn;
(* does s3.upload_file(path, bucket, key) fail? *)
upload_error : string -> value -> string -> gset string -> option exn
}.

Section Effects.
Context `{Externals}.

(** [utils.docker_compose] *)
Definition utils_docker_compose (args : list string) : M Z :=
  fun w =>
    let w1 := log (EvDockerCompose args) w in
    match run_docker_compose args (fs w) with
    | (r, s) => (r, set_fs s w1)
    end.

(** [utils.ensure_file_directory_exists(path)] *)
Definition ensure_file_directory_exists (path : string) : M unit :=
  fun w =>
    let w1 := log (EvEnsureDir path) w in
    match run_ensure_dir path (fs w) with
    | (r, s) => (r, set_fs s w1)
    end.

(** [tarfile.open(path, 'w:gz')]: creates the archive file. *)
Definition tarfile_open (path : string) : M unit :=
  fun w =>
    let w1 := log (EvTarOpen path) w in
    match tar_open_error path (fs w) with
    | Some e => (Raise e, w1)
    | None => (Ok tt, set_fs ({[path]} ∪ fs w) w1)
    end.

(** [tar.add(src, arcname=arcname)] *)
Definition tar_add (src arcname : string) : M unit :=
  fun w =>
    let w1 := log (EvTarAdd src arcname) w in
    match tar_add_error src (fs w) with
    | Some e => (Raise e, w1)
    | None => (Ok tt, w1)
    end.

(** Leaving [with tarfile.open(...) as tar:]. *)
Definition tar_close (path : string) : M unit :=
  fun w => (Ok tt, log (EvTarClose path) w).

(** [subprocess.run(argv)] *)
Definition subprocess_run (argv : list string) : M unit :=
  fun w =>
    let w1 := log (EvSubprocess argv) w in
    match run_subprocess argv (fs w) with
    | (r, s) => (r, set_fs s w1)
    end.

(** [os.remove(path)] *)
Definition os_remove (path : string) : M unit :=
  fun w =>
    let w1 := log (EvRemove path) w in
    match os_remove_error path (fs w) with
    | Some e => (Raise e, w1)
    | None => (Ok tt, set_fs (fs w ∖ {[path]}) w1)
    end.

(** [boto3.client('s3', aws_access_key_id=..., aws_secret_access_key=...)] *)
Definition boto3_client (access secret : value) : M unit :=
  fun w => (Ok tt, log (EvBotoClient access secret) w).

(** [s3.upload_file(path, bucket, key)] *)
Definition s3_upload_file (path : string) (bucket : value) (key : string)
  : M unit :=
  fun w =>
    let w1 := log (EvUpload path bucket key) w in
    match upload_error path bucket key (fs w) with
    | Some e => (Raise e, w1)
    | None => (Ok tt, w1)
    end.

End Effects.

(* --------------------------------------------------------------------- *)
(* tutor/commands/compose.py                                             *)
(* --------------------------------------------------------------------- *)

(** The fields of a [ComposeJobRunner]; [root] and [config] are set by the
    base class constructor. *)
Record ComposeJobRunner : Type := mkRunner {
  root : string;
  config : Config;
  project_name : string;
  docker_compose_files : list string;
  docker_compose_job_files : list string
}.

(** [ComposeJobRunner.__init__] *)
Definition ComposeJobRunner_init (root : string) (config : Config)
  : ComposeJobRunner :=
  mkRunner root config "" [] [].

(** A command context: its root and its [job_runner] method. *)
Record Context : Type := mkContext {
  ctx_root : string;
  job_runner : Config -> result ComposeJobRunner
}.

(** [BaseComposeContext]: [job_runner] is left to the subclasses. *)
Definition BaseComposeContext (root : string) : Context :=
  mkContext root (fun _ => Raise NotImplementedError).

Definition config_get (config : Config) (key : string) : M value :=
  of_result (getitem config key).

Section Compose.
Context `{Externals}.

(** The loop of [docker_compose]:
      for docker_compose_path in self.docker_compose_files:
          if os.path.exists(docker_compose_path):
              args += ["-f", docker_compose_path] *)
Fixpoint docker_compose_loop (paths : list string) (args : list string)
  : M (list string) :=
  match paths with
  | [] => ret args
  | docker_compose_path :: rest =>
      e <- os_path_exists docker_compose_path ;;
      docker_compose_loop rest
        (if e then args ++ ["-f"; docker_compose_path] else args)
  end.

(** [ComposeJobRunner.docker_compose] *)
Definition docker_compose (self : ComposeJobRunner) (command : list string)
  : M Z :=
  args <- docker_compose_loop (docker_compose_files self) [] ;;
  utils_docker_compose (args ++ ["--project-name"; project_name self] ++ command).

(** The loop of [run_job]:
      for docker_compose_path in self.docker_compose_job_files:
          path = tutor_env.pathjoin(self.root, docker_compose_path)
          if os.path.exists(path):
              run_command += ["-f", path] *)
Fixpoint run_job_loop (root : string) (paths : list string)
  (run_command : list string) : M (list string) :=
  match paths with
  | [] => ret run_command
  | docker_compose_path :: rest =>
      let path := pathjoin root [docker_compose_path] in
      e <- os_path_exists path ;;
      run_job_loop root rest
        (if e then run_command ++ ["-f"; path] else run_command)
  end.

(** [ComposeJobRunner.run_job] *)
Definition run_job (self : ComposeJobRunner) (service command : string)
  : M Z :=
  run_command <- run_job_loop (root self) (docker_compose_job_files self) [] ;;
  let run_command := run_command ++ ["run"; "--rm"] in
  t <- is_a_tty ;;
  let run_command := if negb t then run_command ++ ["-T"] else run_command in
  let job_service_name := service +:+ "-job" in
  docker_compose self
    (run_command ++ [job_service_name; "sh"; "-e"; "-c"; command]).

(** The body of [restart] between loading the configuration and calling
    the runner: the loop over the services. *)
Fixpoint restart_loop (config : Config) (services : list string)
  (command : list string) : M (list string) :=
  match services with
  | [] => ret command
  | service :: rest =>
      if String.eqb service "openedx" then
        run_lms <- config_get config "RUN_LMS" ;;
        let command :=
          if truthy run_lms then command ++ ["lms"; "lms-worker"] else command in
        run_cms <- config_get config "RUN_CMS" ;;
        let command :=
          if truthy run_cms then command ++ ["cms"; "cms-worker"] else command in
        restart_loop config rest command
      else
        restart_loop config rest (command ++ [service])
  end.

Definition restart_command (config : Config) (services : list string)
  : M (list string) :=
  let command := ["restart"] in
  if str_in "all" services then ret command
  else restart_loop config services command.

(** [restart] *)
Definition restart (context : Context) (services : list string) : M unit :=
  config <- of_result (config_load (ctx_root context)) ;;
  command <- restart_command config services ;;
  runner <- of_result (job_runner context config) ;;
  _ <- docker_compose runner command ;;
  ret tt.

(** [bindmount_command.name] *)
Definition bindmount_command_name : string := "bindmount".

Definition missing_bind_mount (host_bind_path : string) : exn :=
  TutorError
    ("Bind-mount volume directory " +:+ host_bind_path
     +:+ " does not exist. It must first be created with the '"
     +:+ bindmount_command_name +:+ "' command.").

(** The loop of [dc_command] over the parsed volumes. *)
Fixpoint dc_volume_loop (root : string) (volumes : list string)
  (volume_args : list string) : M (list string) :=
  match volumes with
  | [] => ret volume_args
  | volume_arg :: rest =>
      volume_arg <-
        (if negb (has_char ":" volume_arg) then
           let host_bind_path := get_path root volume_arg in
           e <- os_path_exists host_bind_path ;;
           if negb e then raise (missing_bind_mount host_bind_path)
           else ret (host_bind_path +:+ ":" +:+ volume_arg)
         else ret volume_arg) ;;
      dc_volume_loop root rest (volume_args ++ ["--volume"; volume_arg])
  end.

(** [dc_command] *)
Definition dc_command (context : Context) (command : string)
  (args : list string) : M unit :=
  config <- of_result (config_load (ctx_root context)) ;;
  parsed <- of_result (parse_volumes args) ;;
  let '(volumes, non_volume_args) := parsed in
  volume_args <- dc_volume_loop (ctx_root context) volumes [] ;;
  runner <- of_result (job_runner context config) ;;
  _ <- docker_compose runner ([command] ++ volume_args ++ non_volume_args) ;;
  ret tt.


(** The commands of the two exports and the paths of the backup, as the
    body of [backup] computes them from the timestamp [now]. *)
Definition mongodb_command (now : string) : list string :=
  ["exec"; "mongodb"; "mongodump"; "--out=/data/db/dump_" +:+ now +:+ ".mongodb"].

Definition mysql_command (mysql_root_pwd : value) (now : string) : list string :=
  ["exec"; "mysql"]
  ++ ["mysqldump"; "--all-databases"; "-u"; "root";
      "--password=" +:+ str mysql_root_pwd;
      "--result-file=/var/lib/mysql/dump_" +:+ now +:+ ".sql"].

Definition mongodb_dump_path (root now : string) : string :=
  data_path root ["mongodb/dump_" +:+ now +:+ ".mongodb"].

Definition mysql_dump_path (root now : string) : string :=
  data_path root ["mysql/dump_" +:+ now +:+ ".sql"].

Definition dirFiles (root now : string) : list string :=
  [ mongodb_dump_path root now;
    mysql_dump_path root now;
    data_path root ["cms"];
    data_path root ["lms"];
    data_path root ["openedx-media"] ]
  ++ [root_dir root +:+ "/config.yml"].

Definition file_name (lms_host : value) (now : string) : string :=
  str lms_host +:+ "_" +:+ now +:+ ".tar.gz".

Definition backup_path (root : string) (file_name : string) : string :=
  data_path root ["backup"; file_name].

(** [for dir in dirFiles: tar.add(dir, arcname=os.path.basename(dir))] *)
Fixpoint backup_add_loop (dirFiles : list string) : M unit :=
  match dirFiles with
  | [] => ret tt
  | dir :: rest =>
      tar_add dir (basename dir) ;;
      backup_add_loop rest
  end.

Definition strerror (e : exn) : string :=
  match e with OSError _ s => s | _ => "" end.

(** Removal of the two dumps, inside [try: ... except OSError as e:]. *)
Definition backup_cleanup (mongodb_dump_path mysql_dump_path : string) : M unit :=
  try_except
    (subprocess_run ["sudo"; "rm"; "-rf"; mongodb_dump_path] ;;
     e <- os_path_exists mysql_dump_path ;;
     if e then os_remove mysql_dump_path else ret tt)
    is_OSError
    (fun e =>
       echo_info ("Delete mongodb or mysql dump files " +:+ strerror e
                  +:+ " are failed")).

(** The upload to S3, from [if "BACKUP_ENABLED" in config:] to the end. *)
Definition backup_upload (config : Config) (backup_path file_name : string)
  : M unit :=
  match config !! "BACKUP_ENABLED" with
  | None => ret tt
  | Some enabled =>
      if truthy enabled then
        s3_access_key <- config_get config "BACKUP_S3_ACCESS_KEY" ;;
        s3_secret_key <- config_get config "BACKUP_S3_SECRET_KEY" ;;
        s3_bucket_name <- config_get config "BACKUP_S3_BUCKET_NAME" ;;
        boto3_client s3_access_key s3_secret_key ;;
        try_except
          (s3_upload_file backup_path s3_bucket_name file_name ;;
           echo_info ("Uploaded backup file " +:+ file_name
                      +:+ " to S3 successfully") ;;
           e <- os_path_exists backup_path ;;
           if e then os_remove backup_path else ret tt)
          (fun e => is_FileNotFoundError e || is_NoCredentialsError e)
          (fun e =>
             if is_FileNotFoundError e then
               echo_info ("The backup file " +:+ file_name +:+ " was not found")
             else
               echo_info "The S3 credential is not available")
      else ret tt
  end.

(** [backup]; [now] is [datetime.now().strftime('%Y%m%d_%H%M%S')], read
    once on entry. *)
Definition backup (context : Context) (now : string) : M unit :=
  config <- of_result (config_load (ctx_root context)) ;;
  runner <- of_result (job_runner context config) ;;
  _ <- docker_compose runner (mongodb_command now) ;;
  echo_info "Exported mongo databases successfully" ;;
  mysql_root_pwd <- config_get config "MYSQL_ROOT_PASSWORD" ;;
  _ <- docker_compose runner (mysql_command mysql_root_pwd now) ;;
  echo_info "Exported mysql databases successfully" ;;
  let mongodb_dump_path := mongodb_dump_path (ctx_root context) now in
  let mysql_dump_path := mysql_dump_path (ctx_root context) now in
  let dirFiles := dirFiles (ctx_root context) now in
  lms_host <- config_get config "LMS_HOST" ;;
  let file_name := file_name lms_host now in
  let backup_path := backup_path (ctx_root context) file_name in
  ensure_file_directory_exists backup_path ;;
  tarfile_open backup_path ;;
  finally
    (backup_add_loop dirFiles ;;
     echo_info ("Created backup file " +:+ file_name +:+ " successfully") ;;
     backup_cleanup mongodb_dump_path mysql_dump_path ;;
     backup_upload config backup_path file_name)
    (tar_close backup_path).

End Compose.

(* --------------------------------------------------------------------- *)
(* tutor/commands/dev.py                                                 *)
(* --------------------------------------------------------------------- *)

Section Dev.
Context `{Externals}.

(** [DevJobRunner.__init__] *)
Definition DevJobRunner (root : string) (config : Config)
  : result ComposeJobRunner :=
  let self := ComposeJobRunner_init root config in
  match get_typed_str config "DEV_PROJECT_NAME" with
  | Raise e => Raise e
  | Ok name =>
      Ok (mkRunner root config name
            (docker_compose_files self ++
               [ pathjoin root ["local"; "docker-compose.yml"];
                 pathjoin root ["dev"; "docker-compose.yml"];
                 pathjoin root ["local"; "docker-compose.override.yml"];
                 pathjoin root ["dev"; "docker-compose.override.yml"] ])
            (docker_compose_job_files self ++
               [ pathjoin root ["local"; "docker-compose.jobs.yml"];
                 pathjoin root ["dev"; "docker-compose.jobs.yml"];
                 pathjoin root ["local"; "docker-compose.jobs.override.yml"];
                 pathjoin root ["dev"; "docker-compose.jobs.override.yml"] ]))
  end.

(** [DevContext] *)
Definition DevContext (root : string) : Context :=
  mkContext root (DevJobRunner root).

End Dev.

(* --------------------------------------------------------------------- *)
(* The other commands of compose.py and dev.py                           *)
(* --------------------------------------------------------------------- *)

Section Commands.
Context `{Externals}.

(** [start] *)
Definition start (context : Context) (skip_build detach : bool)
  (services : list string) : M unit :=
  let command := ["up"; "--remove-orphans"] in
  let command := if negb skip_build then command ++ ["--build"] else command in
  let command := if detach then command ++ ["-d"] else command in
  config <- of_result (config_load (ctx_root context)) ;;
  runner <- of_result (job_runner context config) ;;
  _ <- docker_compose runner (command ++ services) ;;
  ret tt.

(** [stop] *)
Definition stop (context : Context) (services : list string) : M unit :=
  config <- of_result (config_load (ctx_root context)) ;;
  runner <- of_result (job_runner context config) ;;
  _ <- docker_compose runner (["stop"] ++ services) ;;
  ret tt.

(** [reboot]: [stop] and then [start], whose [skip_build] flag is left at
    its default. *)
Definition reboot (context : Context) (detach : bool) (services : list string)
  : M unit :=
  stop context services ;;
  start context false detach services.

(** [run] *)
Definition run (context : Context) (args : list string) : M unit :=
  let extra_args := ["--rm"] in
  t <- is_a_tty ;;
  let extra_args := if negb t then extra_args ++ ["-T"] else extra_args in
  dc_command context "run" (extra_args ++ args).

(** [runserver] of dev.py *)
Definition runserver (context : Context) (options : list string)
  (service : string) : M unit :=
  config <- of_result (config_load (ctx_root context)) ;;
  (if str_in service ["lms"; "cms"] then
     let port := if String.eqb service "lms" then 8000%Z else 8001%Z in
     host <-
       (if String.eqb service "lms" then config_get config "LMS_HOST"
        else config_get config "CMS_HOST") ;;
     echo_info ("The " +:+ service +:+ " service will be available at http://"
                +:+ str host +:+ ":" +:+ pretty port)
   else ret tt) ;;
  let args := ["--service-ports"] ++ options ++ [service] in
  run context args.

End Commands.

(* --------------------------------------------------------------------- *)
(* Vocabulary for the properties of the commands                         *)
(* --------------------------------------------------------------------- *)

(** What [restart] puts in place of one service name. *)
Definition restart_expand (lms cms : value) (service : string) : list string :=
  if String.eqb service "openedx" then
    (if truthy lms then ["lms"; "lms-worker"] else [])
    ++ (if truthy cms then ["cms"; "cms-worker"] else [])
  else [service].

(** The first element of a list that satisfies [f]. *)
Fixpoint first_such {A} (f : A → bool) (l : list A) : option A :=
  match l with
  | [] => None
  | x :: rest => if f x then Some x else first_such f rest
  end.

Definition is_add (e : Event) : bool :=
  match e with EvTarAdd _ _ => true | _ => false end.

(** Whatever [m] appends to the log, either no member was added to an
    archive or the last thing logged is the closing of [bp]. *)
Definition closes {A} (bp : string) (m : M A) : Prop :=
  ∀ w, ∃ l, events (snd (m w)) = events w ++ l
            ∧ (Forall (λ e, is_add e = false) l
               ∨ ∃ l', l = l' ++ [EvTarClose bp]).

(** Modelled from the spec: [utils.docker_compose] is not in the two
    modules; the command invoker spawns the orchestration tool as a child
    process, blocks until the child exits and returns the child's exit
    code verbatim, and does not itself raise on a non-zero exit. [child]
    is what the tool does: its exit code and the files it leaves. *)
Definition command_invoker (child : list string → gset string → Z * gset string)
  (args : list string) (s : gset string) : result Z * gset string :=
  let '(code, s') := child args s in (Ok code, s').

Section CommandVectors.
Context `{Externals}.

(** The value [dc] passes after [--volume] for the parsed volume [v]. *)
Definition volume_value (root v : string) : string :=
  if has_char ":" v then v else get_path root v +:+ ":" +:+ v.

(** A parsed volume that makes [dc] fail in the files [s]. *)
Definition unmounted (root : string) (s : gset string) (v : string) : bool :=
  negb (has_char ":" v) && negb (bool_decide (get_path root v ∈ s)).

End CommandVectors.

(* --------------------------------------------------------------------- *)
(* The argument vectors, as the documentation describes them             *)
(* --------------------------------------------------------------------- *)

(** The paths of a file set that exist in [s], in list order. *)
Definition existing (s : gset string) (paths : list string) : list string :=
  filter (λ p, p ∈ s) paths.

(** ["-f" p] for each path of the list. *)
Definition dash_f (paths : list string) : list string :=
  flat_map (λ p, ["-f"; p]) paths.

(** Everything [m] appends to the log satisfies [P], whatever the world it
    is started in and however it ends. *)
Definition emits {A} (P : Event → Prop) (m : M A) : Prop :=
  ∀ w, ∃ l, events (snd (m w)) = events w ++ l ∧ Forall P l.

(** The events that write the archive. *)
Definition is_tar (e : Event) : bool :=
  match e with
  | EvTarOpen _ | EvTarAdd _ _ | EvTarClose _ => true
  | _ => false
  end.

(** The events of the upload: creating the client and calling it. *)
Definition is_network (e : Event) : bool :=
  match e with
  | EvBotoClient _ _ | EvUpload _ _ _ => true
  | _ => false
  end.

(** An archive member is named by the base name of its source. *)
Definition well_named (e : Event) : Prop :=
  match e with
  | EvTarAdd src arcname =>
      arcname = basename src ∧ has_char "/" arcname = false
  | _ => True
  end.

(** Every run of [m] that returns writes the archive [bp] exactly once:
    it opens it, adds each of [srcs] under its base name, in order, and
    closes it, with no other archive event before, between or after. *)
Definition archives {A} (bp : string) (srcs : list string) (m : M A) : Prop :=
  ∀ w a w', m w = (Ok a, w') →
    ∃ l1 l2,
      events w'
      = events w ++ l1 ++ [EvTarOpen bp]
        ++ map (λ p, EvTarAdd p (basename p)) srcs ++ l2 ++ [EvTarClose bp]
      ∧ Forall (λ e, is_tar e = false) l1
      ∧ Forall (λ e, is_tar e = false) l2.

(** Every run of [m] either raises before [tail] is entered, having
    logged no network event, or is the run of [tail] from a world reached
    without a network event. *)
Definition reaches {A} (tail : M A) (m : M A) : Prop :=
  ∀ w,
    (∃ e w1 l, m w = (Raise e, w1) ∧ events w1 = events w ++ l
               ∧ Forall (λ ev, is_network ev = false) l)
    ∨ (∃ w4 l, events w4 = events w ++ l
               ∧ Forall (λ ev, is_network ev = false) l
               ∧ m w = tail w4).

Section Vectors.
Context `{Externals}.

(** The vector [docker_compose] hands to [utils.docker_compose] when it is
    called with the files of [s] present. *)
Definition compose_args (self : ComposeJobRunner) (s : gset string)
  (command : list string) : list string :=
  dash_f (existing s (docker_compose_files self))
  ++ ["--project-name"; project_name self] ++ command.

(** The world after [utils.docker_compose args] has run in [w]. *)
Definition after_tool (args : list string) (w : World) : World :=
  mkWorld (snd (run_docker_compose args (fs w))) (tty w)
          (events w ++ [EvDockerCompose args]).

(** The vector [run_job] passes on to [docker_compose]. *)
Definition job_command (self : ComposeJobRunner) (w : World)
  (service command : string) : list string :=
  dash_f (existing (fs w)
            (map (λ p, pathjoin (root self) [p]) (docker_compose_job_files self)))
  ++ ["run"; "--rm"]
  ++ (if tty w then [] else ["-T"])
  ++ [service +:+ "-job"; "sh"; "-e"; "-c"; command].

End Vectors.

(* --------------------------------------------------------------------- *)
(* A concrete environment, to run the commands on sample inputs          *)
(* --------------------------------------------------------------------- *)

Module Sample.

Definition starts_with_slash (s : string) : bool :=
  match s with
  | String c _ => Ascii.eqb c "/"
  | EmptyString => false
  end.

Fixpoint ends_with_slash (s : string) : bool :=
  match s with
  | EmptyString => false
  | String c EmptyString => Ascii.eqb c "/"
  | String _ rest => ends_with_slash rest
  end.

(** One step of [os.path.join]. *)
Definition join2 (path b : string) : string :=
  if starts_with_slash b then b
  else if String.eqb path "" || ends_with_slash path then path +:+ b
  else path +:+ "/" +:+ b.

(** [os.path.join(a, *p)] *)
Definition os_path_join (a : string) (p : list string) : string :=
  fold_left join2 p a.

(** Modelled from the spec: [tutor_env.pathjoin] is not in the two modules;
    the path resolver joins a root directory and a relative logical path
    and performs no I/O. *)
Definition pathjoin (root : string) (path : list string) : string :=
  os_path_join root path.

(** Modelled from the spec: [tutor_env.data_path] is not in the two
    modules; data directories are resolved under the root like any other
    logical path. *)
Definition data_path (root : string) (path : list string) : string :=
  os_path_join root ("data" :: path).

(** Modelled from the spec: [bindmounts.get_path] is not in the two
    modules; it joins the root with a fixed volumes segment and the
    logical name. *)
Definition get_path (root name : string) : string :=
  os_path_join root ["volumes"; name].

(** Modelled from the spec: [bindmounts.parse_volumes] is not in the two
    modules; it scans the raw arguments for volume flags and separates
    their values from the arguments passed through. *)
Fixpoint parse_volumes (args : list string) : list string * list string :=
  match args with
  | [] => ([], [])
  | a :: rest =>
      if String.eqb a "-v" || String.eqb a "--volume" then
        match rest with
        | v :: rest' =>
            let '(vs, others) := parse_volumes rest' in (v :: vs, others)
        | [] => ([], [a])
        end
      else if String.prefix "--volume=" a then
        let '(vs, others) := parse_volumes rest in
        (String.substring 9 (String.length a - 9) a :: vs, others)
      else
        let '(vs, others) := parse_volumes rest in (vs, a :: others)
  end.

(** Modelled from the spec: [types.get_typed] is not in the two modules;
    the project name is a string derived from the configuration. *)
Definition get_typed_str (config : Config) (key : string) : result string :=
  match config !! key with
  | Some (VStr s) => Ok s
  | _ => Raise (TutorError ("Invalid or missing value for " +:+ key))
  end.

(** An environment with the configuration [cfg], in which the
    orchestration tool answers [tool] and leaves the files as [touch]
    says, the upload answers [up], and nothing else fails. *)
Definition env (cfg : Config) (tool : list string -> result Z)
  (touch : list string -> gset string -> gset string)
  (up : option exn) : Externals :=
  Build_Externals
    pathjoin data_path
    (fun root => root)                        (* root_dir *)
    get_path
    (fun args => Ok (parse_volumes args))
    get_typed_str
    (fun _ => Ok cfg)                         (* config_load *)
    (fun args s => (tool args, touch args s)) (* run_docker_compose *)
    (fun _ s => (Ok tt, s))                   (* run_ensure_dir *)
    (fun _ _ => None)                         (* tar_open_error *)
    (fun _ _ => None)                         (* tar_add_error *)
    (fun _ s => (Ok tt, s))                   (* run_subprocess *)
    (fun _ _ => None)                         (* os_remove_error *)
    (fun _ _ _ _ => up).                      (* upload_error *)

(** A development configuration. *)
Definition cfg : Config :=
  {[ "DEV_PROJECT_NAME" := VStr "tutor_dev";
     "RUN_LMS" := VBool true;
     "RUN_CMS" := VBool false;
     "LMS_HOST" := VStr "lms.example.com";
     "MYSQL_ROOT_PASSWORD" := VStr "s3cr3t" ]}.

Definition quiet : Externals :=
  env cfg (fun _ => Ok 0%Z) (fun _ s => s) None.

Definition w0 : World := mkWorld ∅ true [].

(** An environment in which every run of the tool exits with status 1. *)
Definition exit_1 : Externals :=
  env cfg (fun _ => Ok 1%Z) (fun _ s => s) None.

(** An environment in which the tool cannot be started. *)
Definition no_tool : Externals :=
  env cfg (fun _ => Raise (OSError true "No such file or directory"))
      (fun _ s => s) None.

(** A configuration with the upload switched on. *)
Definition cfg_s3 : Config :=
  <[ "BACKUP_ENABLED" := VBool true ]>
  (<[ "BACKUP_S3_ACCESS_KEY" := VStr "AK" ]>
  (<[ "BACKUP_S3_SECRET_KEY" := VStr "SK" ]>
  (<[ "BACKUP_S3_BUCKET_NAME" := VStr "bucket" ]> cfg))).

Definition s3_ok : Externals :=
  env cfg_s3 (fun _ => Ok 0%Z) (fun _ s => s) None.

Definition s3_no_credentials : Externals :=
  env cfg_s3 (fun _ => Ok 0%Z) (fun _ s => s) (Some NoCredentialsError).

(** A world in which the archive [/r/a.tar.gz] exists. *)
Definition w_archive : World := mkWorld {["/r/a.tar.gz"]} true [].

(** A runner with empty file sets, and one with two service files. *)
Definition bare_runner : ComposeJobRunner :=
  mkRunner "/r" cfg "tutor_dev" [] [].

Definition ab_runner : ComposeJobRunner :=
  mkRunner "/r" cfg "p" ["/r/a.yml"; "/r/b.yml"] [].

(** The development runner of [/r] under [cfg]. *)
Definition dev_runner : ComposeJobRunner :=
  mkRunner "/r" cfg "tutor_dev"
    [ "/r/local/docker-compose.yml";
      "/r/dev/docker-compose.yml";
      "/r/local/docker-compose.override.yml";
      "/r/dev/docker-compose.override.yml" ]
    [ "/r/local/docker-compose.jobs.yml";
      "/r/dev/docker-compose.jobs.yml";
      "/r/local/docker-compose.jobs.override.yml";
      "/r/dev/docker-compose.jobs.override.yml" ].

(** An environment in which every run of the tool creates [/r/b.yml]. *)
Definition creating_b : Externals :=
  env cfg (fun _ => Ok 0%Z) (fun _ s => {["/r/b.yml"]} ∪ s) None.

End Sample.

(* --------------------------------------------------------------------- *)
(* More sample inputs                                                    *)
(* --------------------------------------------------------------------- *)

Module Scenario.

(** A configuration that only names the project. *)
Definition cfg_bare : Config := {[ "DEV_PROJECT_NAME" := VStr "tutor_dev" ]}.

Definition bare : Externals :=
  Sample.env cfg_bare (fun _ => Ok 0%Z) (fun _ s => s) None.

(** The runner of [/r] under [cfg_bare]. *)
Definition bare_dev_runner : ComposeJobRunner :=
  mkRunner "/r" cfg_bare "tutor_dev"
    (docker_compose_files Sample.dev_runner)
    (docker_compose_job_files Sample.dev_runner).

(** A world without a terminal in which the bind-mount directory of
    [edx-platform] exists. *)
Definition w_mounted : World :=
  mkWorld {["/r/volumes/edx-platform"]} false [].

(** A world in which the two local files of the development runner and
    the local job file exist. *)
Definition w_local : World :=
  mkWorld {[ "/r/local/docker-compose.yml";
             "/r/local/docker-compose.override.yml";
             "/r/local/docker-compose.jobs.yml" ]} true [].

(** An environment in which [sudo] cannot be started. *)
Definition no_sudo : Externals :=
  Build_Externals
    Sample.pathjoin Sample.data_path (fun root => root) Sample.get_path
    (fun args => Ok (Sample.parse_volumes args))
    Sample.get_typed_str
    (fun _ => Ok Sample.cfg)
    (fun _ s => (Ok 0%Z, s))
    (fun _ s => (Ok tt, s))
    (fun _ _ => None)
    (fun _ _ => None)
    (fun _ s => (Raise (OSError true "No such file or directory"), s))
    (fun _ _ => None)
    (fun _ _ _ _ => None).

(** An environment in which the upload is refused by the service. *)
Definition s3_denied : Externals :=
  Sample.env Sample.cfg_s3 (fun _ => Ok 0%Z) (fun _ s => s)
    (Some (OtherError "ClientError: AccessDenied")).

(** A configuration with the upload switched on and no credentials. *)
Definition cfg_s3_no_keys : Config :=
  <[ "BACKUP_ENABLED" := VBool true ]> Sample.cfg.

(** An environment in which the upload succeeds and the file to remove
    has vanished by the time [os.remove] is called. *)
Definition vanishing : Externals :=
  Build_Externals
    Sample.pathjoin Sample.data_path (fun root => root) Sample.get_path
    (fun args => Ok (Sample.parse_volumes args))
    Sample.get_typed_str
    (fun _ => Ok Sample.cfg_s3)
    (fun _ s => (Ok 0%Z, s))
    (fun _ s => (Ok tt, s))
    (fun _ _ => None)
    (fun _ _ => None)
    (fun _ s => (Ok tt, s))
    (fun _ _ => Some (OSError true "No such file or directory"))
    (fun _ _ _ _ => None).

(** A world in which the mysql dump of the sample timestamp exists. *)
Definition w_dump : World :=
  mkWorld {["/r/data/mysql/dump_20240101_000000.sql"]} true [].

(** A host on which [tar.add] and [os.remove] fail on a path that does
    not exist, [sudo rm -rf] removes its target, the orchestration tool is
    reached through the command invoker and behaves as [child], and the
    upload answers [up]. *)
Definition host (cfg : Config)
  (child : list string → gset string → Z * gset string) (up : option exn)
  : Externals :=
  Build_Externals
    Sample.pathjoin Sample.data_path (fun root => root) Sample.get_path
    (fun args => Ok (Sample.parse_volumes args))
    Sample.get_typed_str
    (fun _ => Ok cfg)
    (command_invoker child)
    (fun _ s => (Ok tt, s))
    (fun _ _ => None)
    (fun src s =>
       if bool_decide (src ∈ s) then None
       else Some (OSError true "No such file or directory"))
    (fun argv s => (Ok tt, s ∖ list_to_set (drop 3 argv)))
    (fun path s =>
       if bool_decide (path ∈ s) then None
       else Some (OSError true "No such file or directory"))
    (fun _ _ _ _ => up).

(** A tool whose every run exits with status 1 and writes nothing. *)
Definition child_exit_1 (args : list string) (s : gset string)
  : Z * gset string :=
  (1%Z, s).

(** A tool whose exports succeed and leave their dump of the sample
    timestamp on the host. *)
Definition child_dumping (args : list string) (s : gset string)
  : Z * gset string :=
  (0%Z,
   if str_in "mongodump" args
   then {["/r/data/mongodb/dump_20240101_000000.mongodb"]} ∪ s
   else if str_in "mysqldump" args
        then {["/r/data/mysql/dump_20240101_000000.sql"]} ∪ s
        else s).

(** A world with the three data directories and the configuration file. *)
Definition w_data : World :=
  mkWorld {[ "/r/data/cms"; "/r/data/lms"; "/r/data/openedx-media";
             "/r/config.yml" ]} true [].

Definition failing_exports : Externals := host Sample.cfg child_exit_1 None.

Definition s3_up : Externals := host Sample.cfg_s3 child_dumping None.

(** The credentials are refused by the service. *)
Definition s3_refused : Externals :=
  host Sample.cfg_s3 child_dumping
    (Some (OtherError "S3UploadFailedError: InvalidAccessKeyId")).

End Scenario.

(* ===================================================================== *)
(* Properties                                                            *)
(* ===================================================================== *)

Lemma dash_f_app (l1 l2 : list string) :
  dash_f (l1 ++ l2) = dash_f l1 ++ dash_f l2.
Proof. unfold dash_f. apply flat_map_app. Qed.

Lemma existing_elem (s : gset string) (paths : list string) (p : string) :
  p ∈ existing s paths ↔ p ∈ paths ∧ p ∈ s.
Proof. unfold existing. rewrite list_elem_of_filter. tauto. Qed.

Section ComposeFacts.
Context `{Externals}.

Lemma docker_compose_loop_eq (paths args : list string) (w : World) :
  docker_compose_loop paths args w
  = (Ok (args ++ dash_f (existing (fs w) paths)), w).
Proof.
  revert args. induction paths as [|p rest IH]; intros args; simpl.
  - unfold ret. by rewrite app_nil_r.
  - unfold bind, os_path_exists. rewrite IH. unfold existing.
    case_bool_decide as Hp.
    + rewrite filter_cons_True by done. simpl. by rewrite <- app_assoc.
    + by rewrite filter_cons_False by done.
Qed.

Lemma run_job_loop_eq (r : string) (paths run_command : list string) (w : World) :
  run_job_loop r paths run_command w
  = (Ok (run_command
         ++ dash_f (existing (fs w) (map (λ p, pathjoin r [p]) paths))), w).
Proof.
  revert run_command. induction paths as [|p rest IH]; intros rc; simpl.
  - unfold ret. by rewrite app_nil_r.
  - unfold bind, os_path_exists. rewrite IH. unfold existing.
    case_bool_decide as Hp.
    + rewrite filter_cons_True by done. simpl. by rewrite <- app_assoc.
    + by rewrite filter_cons_False by done.
Qed.

Lemma docker_compose_eq (self : ComposeJobRunner) (command : list string)
  (w : World) :
  docker_compose self command w
  = (fst (run_docker_compose (compose_args self (fs w) command) (fs w)),
     after_tool (compose_args self (fs w) command) w).
Proof.
  unfold docker_compose, bind. rewrite docker_compose_loop_eq. simpl.
  unfold utils_docker_compose, after_tool, compose_args.
  destruct (run_docker_compose _ _) as [r s]. reflexivity.
Qed.

Lemma run_job_eq (self : ComposeJobRunner) (service command : string)
  (w : World) :
  run_job self service command w
  = docker_compose self (job_command self w service command) w.
Proof.
  unfold run_job, bind at 1. rewrite run_job_loop_eq. simpl.
  unfold bind at 1, is_a_tty. unfold job_command.
  destruct (tty w); simpl; f_equal; by rewrite <- ?app_assoc.
Qed.

End ComposeFacts.

(* --------------------------------------------------------------------- *)
(* The job runner                                                        *)
(* --------------------------------------------------------------------- *)

Section RunnerClaims.
Context `{Externals}.

(** C1. For every runner and every sequence of command tokens,
    [docker_compose] calls the external tool exactly once, with the
    vector made of ["-f" path] for each path of [docker_compose_files]
    that exists on disk, in list order, then ["--project-name"] and the
    runner's project name, then the caller's tokens; what it returns is
    what that invocation returns. *)
Theorem docker_compose_vector (self : ComposeJobRunner)
  (command : list string) (w : World) :
  let args :=
    dash_f (existing (fs w) (docker_compose_files self))
    ++ ["--project-name"; project_name self] ++ command in
  docker_compose self command w
  = (fst (run_docker_compose args (fs w)),
     mkWorld (snd (run_docker_compose args (fs w))) (tty w)
             (events w ++ [EvDockerCompose args])).
Proof. intros args. apply docker_compose_eq. Qed.

(** C2. In every world, the ["-f"] paths that [docker_compose] and
    [run_job] put in front of the invocation are paths that exist in the
    world of that very call: the selection is computed from the files
    present when the call is made, a runner holds no trace of an earlier
    check, and a listed path that does not exist is left out without an
    error of the runner's own. *)
Theorem file_set_args_exist (self : ComposeJobRunner)
  (command : list string) (service shell : string) (w : World) :
  (∃ sel,
      events (snd (docker_compose self command w))
      = events w
        ++ [EvDockerCompose
              (dash_f sel ++ ["--project-name"; project_name self] ++ command)]
      ∧ sel = existing (fs w) (docker_compose_files self)
      ∧ (∀ p, p ∈ sel → p ∈ fs w)
      ∧ fst (docker_compose self command w)
        = fst (run_docker_compose (compose_args self (fs w) command) (fs w)))
  ∧ (∃ sel selj,
      events (snd (run_job self service shell w))
      = events w
        ++ [EvDockerCompose
              (dash_f sel ++ ["--project-name"; project_name self]
               ++ dash_f selj ++ ["run"; "--rm"]
               ++ (if tty w then [] else ["-T"])
               ++ [service +:+ "-job"; "sh"; "-e"; "-c"; shell])]
      ∧ sel = existing (fs w) (docker_compose_files self)
      ∧ selj = existing (fs w)
                 (map (λ p, pathjoin (root self) [p])
                      (docker_compose_job_files self))
      ∧ (∀ p, p ∈ sel ++ selj → p ∈ fs w)
      ∧ fst (run_job self service shell w)
        = fst (run_docker_compose
                 (compose_args self (fs w) (job_command self w service shell))
                 (fs w))).
Proof.
  split.
  - eexists. rewrite docker_compose_eq. simpl.
    split; [reflexivity|]. split; [reflexivity|]. split; [|reflexivity].
    intros p Hp. by apply existing_elem in Hp as [_ ?].
  - eexists _, _. rewrite run_job_eq, docker_compose_eq. simpl.
    split; [reflexivity|]. split; [reflexivity|]. split; [reflexivity|].
    split; [|reflexivity].
    intros p Hp. apply elem_of_app in Hp as [Hp|Hp];
      by apply existing_elem in Hp as [_ ?].
Qed.

(** C4, as the code has it. For every service name and shell command,
    [run_job] builds ["-f" path] for every job file whose path joined to
    the root exists, then ["run"; "--rm"], then ["-T"] exactly when no
    terminal is attached, then the job service name, ["sh"; "-e"; "-c"]
    and the shell command, and hands this vector to [docker_compose] as
    command tokens: the external tool receives it behind the ["-f"]
    arguments of the service file set and ["--project-name"] with the
    project name. *)
Theorem run_job_vector (self : ComposeJobRunner) (service command : string)
  (w : World) :
  let job :=
    dash_f (existing (fs w)
              (map (λ p, pathjoin (root self) [p])
                   (docker_compose_job_files self)))
    ++ ["run"; "--rm"]
    ++ (if tty w then [] else ["-T"])
    ++ [service +:+ "-job"; "sh"; "-e"; "-c"; command] in
  let args :=
    dash_f (existing (fs w) (docker_compose_files self))
    ++ ["--project-name"; project_name self] ++ job in
  run_job self service command w = docker_compose self job w
  ∧ run_job self service command w
    = (fst (run_docker_compose args (fs w)),
       mkWorld (snd (run_docker_compose args (fs w))) (tty w)
               (events w ++ [EvDockerCompose args])).
Proof.
  intros job args. split.
  - apply run_job_eq.
  - rewrite run_job_eq. apply docker_compose_eq.
Qed.

End RunnerClaims.

(** C4, as stated, fails: with empty file sets and a terminal attached,
    the claimed vector starts with ["run"], while the tool is invoked with
    ["--project-name"; "tutor_dev"] in front of it. *)
Lemma run_job_delivers_more_than_its_vector :
  job_command (H:=Sample.quiet) Sample.bare_runner Sample.w0 "lms" "echo ok"
  = ["run"; "--rm"; "lms-job"; "sh"; "-e"; "-c"; "echo ok"]
  ∧ events (snd (run_job (H:=Sample.quiet) Sample.bare_runner
                   "lms" "echo ok" Sample.w0))
    = [EvDockerCompose
         ["--project-name"; "tutor_dev";
          "run"; "--rm"; "lms-job"; "sh"; "-e"; "-c"; "echo ok"]]
  ∧ events (snd (run_job (H:=Sample.quiet) Sample.bare_runner
                   "lms" "echo ok" Sample.w0))
    ≠ [EvDockerCompose
         ["run"; "--rm"; "lms-job"; "sh"; "-e"; "-c"; "echo ok"]].
Proof.
  split; [reflexivity|]. split; [reflexivity|].
  intros Heq. discriminate Heq.
Qed.

(** The filtering is redone at each call: a file that the first
    invocation leaves behind is part of the second one. *)
Example docker_compose_sees_new_files :
  events (snd ((docker_compose (H:=Sample.creating_b) Sample.ab_runner ["up"] ;;
                docker_compose (H:=Sample.creating_b) Sample.ab_runner ["ps"])
                 Sample.w0))
  = [EvDockerCompose ["--project-name"; "p"; "up"];
     EvDockerCompose ["-f"; "/r/b.yml"; "--project-name"; "p"; "ps"]].
Proof. vm_compute. reflexivity. Qed.

(* --------------------------------------------------------------------- *)
(* The development profile                                               *)
(* --------------------------------------------------------------------- *)

(** C3, as stated, fails: in both file sets of the development runner the
    second entry is the profile's own file, not the override of the
    foundational one. *)
Lemma dev_file_sets_not_in_specified_precedence :
  match DevJobRunner (H:=Sample.quiet) "/r" Sample.cfg with
  | Ok r =>
      docker_compose_files r
      ≠ [ "/r/local/docker-compose.yml";
          "/r/local/docker-compose.override.yml";
          "/r/dev/docker-compose.yml";
          "/r/dev/docker-compose.override.yml" ]
      ∧ docker_compose_files r !! 1%nat = Some "/r/dev/docker-compose.yml"
      ∧ docker_compose_job_files r
        ≠ [ "/r/local/docker-compose.jobs.yml";
            "/r/local/docker-compose.jobs.override.yml";
            "/r/dev/docker-compose.jobs.yml";
            "/r/dev/docker-compose.jobs.override.yml" ]
      ∧ docker_compose_job_files r !! 1%nat
        = Some "/r/dev/docker-compose.jobs.yml"
  | Raise _ => False
  end.
Proof.
  vm_compute. repeat split; try reflexivity; intros Heq; discriminate Heq.
Qed.

Section DevClaims.
Context `{Externals}.

(** C3, as the code has it. Both file sets of the development runner are
    ordered: the foundational (local) file, the profile's own (dev) file,
    the override of the foundational file, the override of the profile's
    own file. *)
Theorem dev_file_sets_order (root : string) (config : Config)
  (r : ComposeJobRunner) :
  DevJobRunner root config = Ok r →
  docker_compose_files r
  = [ pathjoin root ["local"; "docker-compose.yml"];
      pathjoin root ["dev"; "docker-compose.yml"];
      pathjoin root ["local"; "docker-compose.override.yml"];
      pathjoin root ["dev"; "docker-compose.override.yml"] ]
  ∧ docker_compose_job_files r
    = [ pathjoin root ["local"; "docker-compose.jobs.yml"];
        pathjoin root ["dev"; "docker-compose.jobs.yml"];
        pathjoin root ["local"; "docker-compose.jobs.override.yml"];
        pathjoin root ["dev"; "docker-compose.jobs.override.yml"] ].
Proof.
  unfold DevJobRunner. destruct (get_typed_str _ _) as [name|e]; [|discriminate].
  intros [= <-]. split; reflexivity.
Qed.

End DevClaims.

Lemma dev_file_sets_order_witness :
  DevJobRunner (H:=Sample.quiet) "/r" Sample.cfg = Ok Sample.dev_runner
  ∧ docker_compose_files Sample.dev_runner
    = [ "/r/local/docker-compose.yml";
        "/r/dev/docker-compose.yml";
        "/r/local/docker-compose.override.yml";
        "/r/dev/docker-compose.override.yml" ]
  ∧ docker_compose_job_files Sample.dev_runner
    = [ "/r/local/docker-compose.jobs.yml";
        "/r/dev/docker-compose.jobs.yml";
        "/r/local/docker-compose.jobs.override.yml";
        "/r/dev/docker-compose.jobs.override.yml" ].
Proof.
  split; [vm_compute; reflexivity|].
  apply (dev_file_sets_order (H:=Sample.quiet) "/r" Sample.cfg).
  vm_compute. reflexivity.
Defined.

(* --------------------------------------------------------------------- *)
(* restart                                                               *)
(* --------------------------------------------------------------------- *)

Section RestartClaims.
Context `{Externals}.

Lemma restart_eq (context : Context) (services command : list string)
  (cfg : Config) (runner : ComposeJobRunner) (w : World) :
  config_load (ctx_root context) = Ok cfg →
  job_runner context cfg = Ok runner →
  restart_command cfg services w = (Ok command, w) →
  events (snd (restart context services w))
  = events w ++ [EvDockerCompose (compose_args runner (fs w) command)].
Proof.
  intros Hload Hrunner Hcmd. unfold restart, bind, of_result.
  rewrite Hload, Hcmd, Hrunner, docker_compose_eq. simpl.
  by destruct (fst _).
Qed.

(** C9. For [restart] with the services [["openedx"]] under a
    configuration in which [RUN_LMS] holds and [RUN_CMS] does not, the
    command tokens handed to [docker_compose] are exactly
    [restart lms lms-worker]. *)
Theorem restart_openedx_lms_only (context : Context) (cfg : Config)
  (lms cms : value) (runner : ComposeJobRunner) (w : World) :
  config_load (ctx_root context) = Ok cfg →
  job_runner context cfg = Ok runner →
  cfg !! "RUN_LMS" = Some lms → truthy lms = true →
  cfg !! "RUN_CMS" = Some cms → truthy cms = false →
  restart_command cfg ["openedx"] w = (Ok ["restart"; "lms"; "lms-worker"], w)
  ∧ events (snd (restart context ["openedx"] w))
    = events w
      ++ [EvDockerCompose
            (dash_f (existing (fs w) (docker_compose_files runner))
             ++ ["--project-name"; project_name runner]
             ++ ["restart"; "lms"; "lms-worker"])].
Proof.
  intros Hload Hrunner Hlms Tlms Hcms Tcms.
  assert (Hcmd : restart_command cfg ["openedx"] w
                 = (Ok ["restart"; "lms"; "lms-worker"], w)).
  { unfold restart_command. simpl.
    unfold bind, config_get, of_result, getitem.
    by rewrite Hlms, Hcms, Tlms, Tcms. }
  split; [exact Hcmd|].
  by apply (restart_eq context _ _ cfg runner).
Qed.

(** C10. If ["all"] occurs anywhere among the services given to
    [restart], the other names are ignored and the bare command
    [restart] is handed to [docker_compose]. *)
Theorem restart_all (context : Context) (services : list string)
  (cfg : Config) (runner : ComposeJobRunner) (w : World) :
  "all" ∈ services →
  config_load (ctx_root context) = Ok cfg →
  job_runner context cfg = Ok runner →
  restart_command cfg services w = (Ok ["restart"], w)
  ∧ events (snd (restart context services w))
    = events w
      ++ [EvDockerCompose
            (dash_f (existing (fs w) (docker_compose_files runner))
             ++ ["--project-name"; project_name runner] ++ ["restart"])].
Proof.
  intros Hall Hload Hrunner.
  assert (Hcmd : restart_command cfg services w = (Ok ["restart"], w)).
  { unfold restart_command, str_in. by rewrite bool_decide_eq_true_2. }
  split; [exact Hcmd|].
  by apply (restart_eq context _ _ cfg runner).
Qed.

End RestartClaims.

Lemma restart_openedx_lms_only_witness :
  restart_command Sample.cfg ["openedx"] Sample.w0
  = (Ok ["restart"; "lms"; "lms-worker"], Sample.w0)
  ∧ events (snd (restart (H:=Sample.quiet) (DevContext (H:=Sample.quiet) "/r")
                   ["openedx"] Sample.w0))
    = [EvDockerCompose
         ["--project-name"; "tutor_dev"; "restart"; "lms"; "lms-worker"]].
Proof.
  apply (restart_openedx_lms_only (H:=Sample.quiet)
           (DevContext (H:=Sample.quiet) "/r") Sample.cfg
           (VBool true) (VBool false) Sample.dev_runner Sample.w0);
    vm_compute; reflexivity.
Defined.

Lemma restart_all_witness :
  restart_command Sample.cfg ["lms"; "all"; "openedx"]
    Sample.w0
  = (Ok ["restart"], Sample.w0)
  ∧ events (snd (restart (H:=Sample.quiet) (DevContext (H:=Sample.quiet) "/r")
                   ["lms"; "all"; "openedx"] Sample.w0))
    = [EvDockerCompose ["--project-name"; "tutor_dev"; "restart"]].
Proof.
  apply (restart_all (H:=Sample.quiet)
           (DevContext (H:=Sample.quiet) "/r") ["lms"; "all"; "openedx"]
           Sample.cfg Sample.dev_runner Sample.w0).
  - apply list_elem_of_further, list_elem_of_here.
  - vm_compute. reflexivity.
  - vm_compute. reflexivity.
Defined.

(* --------------------------------------------------------------------- *)
(* dc                                                                    *)
(* --------------------------------------------------------------------- *)

Section DcClaims.
Context `{Externals}.

Lemma dc_volume_loop_missing (root : string) (volumes acc : list string)
  (w : World) :
  (∃ v, v ∈ volumes ∧ has_char ":" v = false ∧ (get_path root v ∉ fs w)) →
  ∃ v, v ∈ volumes ∧ has_char ":" v = false ∧ (get_path root v ∉ fs w)
       ∧ dc_volume_loop root volumes acc w
         = (Raise (missing_bind_mount (get_path root v)), w).
Proof.
  revert acc. induction volumes as [|a rest IH]; intros acc (v & Hin & Hbare & Hmiss).
  - by apply elem_of_nil in Hin.
  - simpl. unfold bind at 1.
    destruct (has_char ":" a) eqn:Ha; simpl.
    + assert (Hrest : v ∈ rest).
      { apply elem_of_cons in Hin as [->|?]; [congruence|done]. }
      destruct (IH (acc ++ ["--volume"; a])) as (v' & ? & ? & ? & Hrun);
        [by exists v|].
      exists v'. repeat split; try done. by apply list_elem_of_further.
    + unfold bind at 1, os_path_exists. case_bool_decide as Hex; simpl.
      * assert (Hrest : v ∈ rest).
        { apply elem_of_cons in Hin as [->|?]; [contradiction|done]. }
        destruct (IH (acc ++ ["--volume"; get_path root a +:+ ":" +:+ a]))
          as (v' & ? & ? & ? & Hrun); [by exists v|].
        exists v'. repeat split; try done. by apply list_elem_of_further.
      * exists a. repeat split; try done. apply list_elem_of_here.
Qed.

(** C5. When the arguments of [dc] hold a bare volume token (one without
    [":"]) whose bind-mount directory does not exist, the command fails
    with the error that names the missing directory and the [bindmount]
    command, the orchestration tool is not invoked and the world is left
    as it was. *)
Theorem dc_command_missing_bind_mount (context : Context) (command : string)
  (args volumes rest : list string) (cfg : Config) (w : World) :
  config_load (ctx_root context) = Ok cfg →
  parse_volumes args = Ok (volumes, rest) →
  (∃ v, v ∈ volumes ∧ has_char ":" v = false
        ∧ (get_path (ctx_root context) v ∉ fs w)) →
  ∃ v, v ∈ volumes ∧ has_char ":" v = false
       ∧ (get_path (ctx_root context) v ∉ fs w)
       ∧ dc_command context command args w
         = (Raise (TutorError
                     ("Bind-mount volume directory "
                      +:+ get_path (ctx_root context) v
                      +:+ " does not exist. It must first be created with the 'bindmount' command.")),
            w).
Proof.
  intros Hload Hparse Hmissing.
  destruct (dc_volume_loop_missing (ctx_root context) volumes [] w Hmissing)
    as (v & Hin & Hbare & Hmiss & Hrun).
  exists v. repeat split; try done.
  unfold dc_command, bind, of_result. by rewrite Hload, Hparse, Hrun.
Qed.

End DcClaims.

Lemma dc_command_missing_bind_mount_witness :
  ∃ v, v ∈ ["edx-platform"] ∧ has_char ":" v = false
       ∧ (Sample.get_path "/r" v ∉ fs Sample.w0)
       ∧ dc_command (H:=Sample.quiet) (DevContext (H:=Sample.quiet) "/r")
           "run" ["--volume=edx-platform"; "lms"; "bash"] Sample.w0
         = (Raise (TutorError
                     ("Bind-mount volume directory "
                      +:+ Sample.get_path "/r" v
                      +:+ " does not exist. It must first be created with the 'bindmount' command.")),
            Sample.w0).
Proof.
  apply (dc_command_missing_bind_mount (H:=Sample.quiet)
           (DevContext (H:=Sample.quiet) "/r") "run"
           ["--volume=edx-platform"; "lms"; "bash"]
           ["edx-platform"] ["lms"; "bash"] Sample.cfg Sample.w0).
  - reflexivity.
  - reflexivity.
  - exists "edx-platform". split; [apply list_elem_of_here|].
    split; [reflexivity|]. apply not_elem_of_empty.
Defined.

(* --------------------------------------------------------------------- *)
(* What a computation can append to the log                              *)
(* --------------------------------------------------------------------- *)

Lemma bind_ok {A B} (m : M A) (k : A → M B) (w w' : World) (a : A) :
  m w = (Ok a, w') → bind m k w = k a w'.
Proof. intros Hm. unfold bind. by rewrite Hm. Qed.

Lemma bind_raise {A B} (m : M A) (k : A → M B) (w w' : World) (e : exn) :
  m w = (Raise e, w') → bind m k w = (Raise e, w').
Proof. intros Hm. unfold bind. by rewrite Hm. Qed.

Lemma bind_ok_inv {A B} (m : M A) (k : A → M B) (w w' : World) (b : B) :
  bind m k w = (Ok b, w') → ∃ a w1, m w = (Ok a, w1) ∧ k a w1 = (Ok b, w').
Proof.
  unfold bind. destruct (m w) as [[a|e] w1]; [eauto|discriminate].
Qed.

Lemma finally_ok_inv {A} (m : M A) (c : M unit) (w w' : World) (a : A) :
  finally m c w = (Ok a, w') →
  ∃ w1, m w = (Ok a, w1) ∧ c w1 = (Ok tt, w').
Proof.
  unfold finally. destruct (m w) as [r w1]. destruct (c w1) as [[[]|e] w2] eqn:Hc.
  - intros [= -> ->]. eauto.
  - discriminate.
Qed.

Section Emits.
Context {P : Event → Prop}.

Lemma emits_ret {A} (a : A) : emits P (ret a).
Proof. intros w. exists []. by rewrite app_nil_r. Qed.

Lemma emits_raise {A} (e : exn) : emits P (raise (A:=A) e).
Proof. intros w. exists []. by rewrite app_nil_r. Qed.

Lemma emits_of_result {A} (r : result A) : emits P (of_result r).
Proof. intros w. exists []. by rewrite app_nil_r. Qed.

Lemma emits_config_get (cfg : Config) (key : string) :
  emits P (config_get cfg key).
Proof. apply emits_of_result. Qed.

Lemma emits_os_path_exists (p : string) : emits P (os_path_exists p).
Proof. intros w. exists []. by rewrite app_nil_r. Qed.

Lemma emits_is_a_tty : emits P is_a_tty.
Proof. intros w. exists []. by rewrite app_nil_r. Qed.

Lemma emits_bind {A B} (m : M A) (k : A → M B) :
  emits P m → (∀ a, emits P (k a)) → emits P (bind m k).
Proof.
  intros Hm Hk w. unfold bind. destruct (Hm w) as (l1 & E1 & F1).
  destruct (m w) as [[a|e] w1]; simpl in *.
  - destruct (Hk a w1) as (l2 & E2 & F2). exists (l1 ++ l2).
    rewrite E2, E1, app_assoc. split; [done|]. by apply Forall_app.
  - by exists l1.
Qed.

Lemma emits_try_except {A} (m : M A) (handles : exn → bool)
  (handler : exn → M A) :
  emits P m → (∀ e, emits P (handler e)) → emits P (try_except m handles handler).
Proof.
  intros Hm Hh w. unfold try_except. destruct (Hm w) as (l1 & E1 & F1).
  destruct (m w) as [[a|e] w1]; simpl in *.
  - by exists l1.
  - destruct (handles e); simpl; [|by exists l1].
    destruct (Hh e w1) as (l2 & E2 & F2). exists (l1 ++ l2).
    rewrite E2, E1, app_assoc. split; [done|]. by apply Forall_app.
Qed.

Lemma emits_finally {A} (m : M A) (c : M unit) :
  emits P m → emits P c → emits P (finally m c).
Proof.
  intros Hm Hc w. unfold finally. destruct (Hm w) as (l1 & E1 & F1).
  destruct (m w) as [r w1]; simpl in *.
  destruct (Hc w1) as (l2 & E2 & F2).
  exists (l1 ++ l2). split; [|by apply Forall_app].
  destruct (c w1) as [[[]|e] w2]; simpl in *; by rewrite E2, E1, app_assoc.
Qed.

Lemma emits_if {A} (b : bool) (m1 m2 : M A) :
  emits P m1 → emits P m2 → emits P (if b then m1 else m2).
Proof. by destruct b. Qed.

Lemma emits_one {A} (m : M A) (ev : Event) :
  (∀ w, events (snd (m w)) = events w ++ [ev]) → P ev → emits P m.
Proof.
  intros Hm Hev w. exists [ev]. split; [apply Hm|]. by apply Forall_singleton.
Qed.

Lemma emits_echo_info (msg : string) : P (EvEcho msg) → emits P (echo_info msg).
Proof. by apply emits_one. Qed.

Context `{Externals}.

Lemma emits_utils_docker_compose (args : list string) :
  P (EvDockerCompose args) → emits P (utils_docker_compose args).
Proof.
  apply emits_one. intros w. unfold utils_docker_compose.
  by destruct (run_docker_compose _ _).
Qed.

Lemma emits_docker_compose (self : ComposeJobRunner) (command : list string) :
  (∀ args, P (EvDockerCompose args)) → emits P (docker_compose self command).
Proof.
  intros HP w. rewrite docker_compose_eq. simpl.
  eexists [_]. split; [reflexivity|]. by apply Forall_singleton.
Qed.

Lemma emits_ensure_file_directory_exists (path : string) :
  P (EvEnsureDir path) → emits P (ensure_file_directory_exists path).
Proof.
  apply emits_one. intros w. unfold ensure_file_directory_exists.
  by destruct (run_ensure_dir _ _).
Qed.

Lemma emits_tarfile_open (path : string) :
  P (EvTarOpen path) → emits P (tarfile_open path).
Proof.
  apply emits_one. intros w. unfold tarfile_open.
  by destruct (tar_open_error _ _).
Qed.

Lemma emits_tar_add (src arcname : string) :
  P (EvTarAdd src arcname) → emits P (tar_add src arcname).
Proof.
  apply emits_one. intros w. unfold tar_add. by destruct (tar_add_error _ _).
Qed.

Lemma emits_tar_close (path : string) :
  P (EvTarClose path) → emits P (tar_close path).
Proof. by apply emits_one. Qed.

Lemma emits_subprocess_run (argv : list string) :
  P (EvSubprocess argv) → emits P (subprocess_run argv).
Proof.
  apply emits_one. intros w. unfold subprocess_run.
  by destruct (run_subprocess _ _).
Qed.

Lemma emits_os_remove (path : string) :
  P (EvRemove path) → emits P (os_remove path).
Proof.
  apply emits_one. intros w. unfold os_remove. by destruct (os_remove_error _ _).
Qed.

Lemma emits_boto3_client (access secret : value) :
  P (EvBotoClient access secret) → emits P (boto3_client access secret).
Proof. by apply emits_one. Qed.

Lemma emits_s3_upload_file (path : string) (bucket : value) (key : string) :
  P (EvUpload path bucket key) → emits P (s3_upload_file path bucket key).
Proof.
  apply emits_one. intros w. unfold s3_upload_file.
  by destruct (upload_error _ _ _ _).
Qed.

Lemma emits_backup_add_loop (l : list string) :
  (∀ src, P (EvTarAdd src (basename src))) → emits P (backup_add_loop l).
Proof.
  intros HP. induction l as [|dir rest IH]; simpl.
  - apply emits_ret.
  - apply emits_bind; [by apply emits_tar_add|]. intros _. exact IH.
Qed.

End Emits.

(** Decomposes a goal [emits P m] along the structure of [m]; the side
    conditions on single events are left to [done]. *)
Ltac emits_step :=
  lazymatch goal with
  | |- emits _ (ret _) => apply emits_ret
  | |- emits _ (raise _) => apply emits_raise
  | |- emits _ (config_get _ _) => apply emits_config_get
  | |- emits _ (of_result _) => apply emits_of_result
  | |- emits _ (os_path_exists _) => apply emits_os_path_exists
  | |- emits _ is_a_tty => apply emits_is_a_tty
  | |- emits _ (echo_info _) => apply emits_echo_info
  | |- emits _ (docker_compose _ _) => apply emits_docker_compose; intros ?
  | |- emits _ (ensure_file_directory_exists _) =>
      apply emits_ensure_file_directory_exists
  | |- emits _ (tarfile_open _) => apply emits_tarfile_open
  | |- emits _ (backup_add_loop _) => apply emits_backup_add_loop; intros ?
  | |- emits _ (tar_close _) => apply emits_tar_close
  | |- emits _ (subprocess_run _) => apply emits_subprocess_run
  | |- emits _ (os_remove _) => apply emits_os_remove
  | |- emits _ (boto3_client _ _) => apply emits_boto3_client
  | |- emits _ (s3_upload_file _ _ _) => apply emits_s3_upload_file
  | |- emits _ (bind _ _) => apply emits_bind; [|intros ?]
  | |- emits _ (try_except _ _ _) => apply emits_try_except; [|intros ?]
  | |- emits _ (finally _ _) => apply emits_finally
  | |- emits _ (if _ then _ else _) => apply emits_if
  | |- emits _ (let _ := _ in _) => cbv zeta
  end.

Ltac emits_tac := repeat emits_step; try done.

Lemma emits_run {A} (P : Event → Prop) (m : M A) (w w' : World) (r : result A) :
  emits P m → m w = (r, w') → ∃ l, events w' = events w ++ l ∧ Forall P l.
Proof. intros Hm Hrun. destruct (Hm w) as (l & E & F). rewrite Hrun in E. eauto. Qed.

(* --------------------------------------------------------------------- *)
(* Base names                                                            *)
(* --------------------------------------------------------------------- *)

Lemma basename_no_slash (p : string) : has_char "/" (basename p) = false.
Proof.
  induction p as [|c rest IH]; [reflexivity|]. cbn [basename].
  destruct (has_char "/" rest) eqn:Hrest; [exact IH|].
  destruct (Ascii.eqb c "/") eqn:Hc; [exact Hrest|].
  cbn [has_char]. rewrite Ascii.eqb_sym, Hc. exact Hrest.
Qed.

Lemma basename_id (p : string) : has_char "/" p = false → basename p = p.
Proof.
  destruct p as [|c rest]; [reflexivity|]. cbn [basename has_char].
  rewrite Ascii.eqb_sym. destruct (Ascii.eqb c "/"); [discriminate|].
  by intros ->.
Qed.

Lemma has_char_app_r (c : ascii) (s t : string) :
  has_char c t = true → has_char c (s +:+ t) = true.
Proof.
  intros Ht. induction s as [|d s IH]; [exact Ht|].
  change (has_char c (String d (s +:+ t)) = true). cbn [has_char].
  destruct (Ascii.eqb c d); [reflexivity|exact IH].
Qed.

Lemma basename_join (dir name : string) :
  has_char "/" name = false → basename (dir +:+ "/" +:+ name) = name.
Proof.
  intros Hname. induction dir as [|c rest IH].
  - change (basename (String "/" name) = name). cbn [basename].
    rewrite Hname. reflexivity.
  - change (basename (String c (rest +:+ "/" +:+ name)) = name).
    cbn [basename]. rewrite has_char_app_r by reflexivity. exact IH.
Qed.

(* --------------------------------------------------------------------- *)
(* backup                                                                *)
(* --------------------------------------------------------------------- *)

Section BackupFacts.
Context `{Externals}.

Lemma emits_backup_cleanup (P : Event → Prop) (mongo mysql : string) :
  (∀ argv, P (EvSubprocess argv)) → (∀ p, P (EvRemove p)) →
  (∀ msg, P (EvEcho msg)) →
  emits P (backup_cleanup mongo mysql).
Proof. intros H1 H2 H3. unfold backup_cleanup. emits_tac. Qed.

Lemma emits_backup_upload (P : Event → Prop) (cfg : Config) (bp name : string) :
  (∀ a s, P (EvBotoClient a s)) → (∀ p b k, P (EvUpload p b k)) →
  (∀ p, P (EvRemove p)) → (∀ msg, P (EvEcho msg)) →
  emits P (backup_upload cfg bp name).
Proof.
  intros H1 H2 H3 H4. unfold backup_upload.
  destruct (cfg !! "BACKUP_ENABLED") as [enabled|]; emits_tac.
Qed.

Lemma backup_upload_disabled (cfg : Config) (bp name : string) :
  (cfg !! "BACKUP_ENABLED" = None
   ∨ ∃ v, cfg !! "BACKUP_ENABLED" = Some v ∧ truthy v = false) →
  backup_upload cfg bp name = ret tt.
Proof.
  unfold backup_upload. intros [->|(v & -> & ->)]; reflexivity.
Qed.

Lemma backup_add_loop_ok (srcs : list string) (w w' : World) :
  backup_add_loop srcs w = (Ok tt, w') →
  events w' = events w ++ map (λ p, EvTarAdd p (basename p)) srcs.
Proof.
  revert w. induction srcs as [|dir rest IH]; intros w; simpl.
  - intros [= <-]. by rewrite app_nil_r.
  - intros Hrun. apply bind_ok_inv in Hrun as ([] & w1 & Hadd & Hrun).
    apply IH in Hrun. rewrite Hrun.
    unfold tar_add in Hadd. destruct (tar_add_error _ _); [discriminate|].
    injection Hadd as <-. simpl. by rewrite <- app_assoc.
Qed.

Lemma archives_bind {A B} (bp : string) (srcs : list string)
  (m : M A) (k : A → M B) :
  emits (λ e, is_tar e = false) m → (∀ a, archives bp srcs (k a)) →
  archives bp srcs (bind m k).
Proof.
  intros Hm Hk w b w' Hrun.
  apply bind_ok_inv in Hrun as (a & w1 & Hm1 & Hrun).
  destruct (emits_run _ _ _ _ _ Hm Hm1) as (l0 & E0 & F0).
  destruct (Hk a w1 b w' Hrun) as (l1 & l2 & E & F1 & F2).
  exists (l0 ++ l1), l2. rewrite E, E0, <- !app_assoc.
  split; [done|]. split; [by apply Forall_app|done].
Qed.

Lemma archives_known {A B} (bp : string) (srcs : list string)
  (a : A) (k : A → M B) :
  archives bp srcs (k a) → archives bp srcs (bind (of_result (Ok a)) k).
Proof. intros Hk w b w' Hrun. by apply (Hk w b w'). Qed.

Lemma archives_core {A} (bp : string) (srcs : list string) (rest : M A) :
  emits (λ e, is_tar e = false) rest →
  archives bp srcs
    (bind (tarfile_open bp)
       (λ _, finally (bind (backup_add_loop srcs) (λ _, rest)) (tar_close bp))).
Proof.
  intros Hrest w a w' Hrun.
  apply bind_ok_inv in Hrun as ([] & w1 & Hopen & Hrun).
  apply finally_ok_inv in Hrun as (w2 & Hbody & Hclose).
  apply bind_ok_inv in Hbody as ([] & w3 & Hadd & Hbody).
  apply backup_add_loop_ok in Hadd.
  destruct (emits_run _ _ _ _ _ Hrest Hbody) as (l2 & E2 & F2).
  unfold tar_close in Hclose. injection Hclose as <-.
  unfold tarfile_open in Hopen. destruct (tar_open_error _ _); [discriminate|].
  injection Hopen as <-. simpl in *.
  exists [], l2. rewrite E2, Hadd. simpl. rewrite <- !app_assoc. simpl.
  split; [done|]. split; [constructor|done].
Qed.

(** Whatever happens, an entry is only ever added under the base name of
    its source, and a base name holds no ["/"]. *)
Lemma backup_entries_well_named (context : Context) (now : string) :
  emits well_named (backup context now).
Proof.
  unfold backup.
  repeat first
    [ apply emits_backup_cleanup; intros
    | apply emits_backup_upload; intros
    | emits_step ]; try done.
  simpl. split; [reflexivity|apply basename_no_slash].
Qed.

End BackupFacts.

Section BackupClaims.
Context `{Externals}.

(** C6, as the code has it. [backup] does not look at the exit code of
    the two exports. When the mongodb or the mysql export invocation
    raises, the pipeline stops there with that error: nothing is logged
    after the failed invocation, neither its confirmation nor a later
    stage. When the invocation returns, with whatever exit code, the
    confirmation of the stage is emitted and the pipeline goes on to the
    next stage: after the mongodb export the mysql export is invoked, and
    after the mysql export the directory of the archive is ensured and the
    archive is opened. *)
Theorem backup_export_failure (context : Context) (now : string)
  (cfg : Config) (runner : ComposeJobRunner) (w : World) :
  config_load (ctx_root context) = Ok cfg →
  job_runner context cfg = Ok runner →
  let a1 := compose_args runner (fs w) (mongodb_command now) in
  let w1 :=
    log (EvEcho "Exported mongo databases successfully") (after_tool a1 w) in
  (∀ e, fst (run_docker_compose a1 (fs w)) = Raise e →
        backup context now w = (Raise e, after_tool a1 w))
  ∧ (∀ c, fst (run_docker_compose a1 (fs w)) = Ok c →
          ∃ rest,
            events (snd (backup context now w))
            = events w
              ++ [EvDockerCompose a1;
                  EvEcho "Exported mongo databases successfully"] ++ rest)
  ∧ (∀ c pwd,
       fst (run_docker_compose a1 (fs w)) = Ok c →
       cfg !! "MYSQL_ROOT_PASSWORD" = Some pwd →
       let a2 := compose_args runner (fs w1) (mysql_command pwd now) in
       (∀ e, fst (run_docker_compose a2 (fs w1)) = Raise e →
             backup context now w = (Raise e, after_tool a2 w1))
       ∧ (∀ c2, fst (run_docker_compose a2 (fs w1)) = Ok c2 →
                (∃ rest,
                   events (snd (backup context now w))
                   = events w
                     ++ [EvDockerCompose a1;
                         EvEcho "Exported mongo databases successfully";
                         EvDockerCompose a2;
                         EvEcho "Exported mysql databases successfully"]
                     ++ rest)
                ∧ (∀ host, cfg !! "LMS_HOST" = Some host →
                     let bp :=
                       data_path (ctx_root context)
                         ["backup"; str host +:+ "_" +:+ now +:+ ".tar.gz"] in
                     (∃ rest,
                        events (snd (backup context now w))
                        = events w
                          ++ [EvDockerCompose a1;
                              EvEcho "Exported mongo databases successfully";
                              EvDockerCompose a2;
                              EvEcho "Exported mysql databases successfully";
                              EvEnsureDir bp]
                          ++ rest)
                     ∧ (∀ s3,
                          run_ensure_dir bp
                            (snd (run_docker_compose a2 (fs w1)))
                          = (Ok tt, s3) →
                          ∃ rest,
                            events (snd (backup context now w))
                            = events w
                              ++ [EvDockerCompose a1;
                                  EvEcho "Exported mongo databases successfully";
                                  EvDockerCompose a2;
                                  EvEcho "Exported mysql databases successfully";
                                  EvEnsureDir bp;
                                  EvTarOpen bp]
                              ++ rest)))).
Proof.
  intros Hload Hrunner a1 w1.
  assert (Hstart : backup context now w =
            bind (docker_compose runner (mongodb_command now))
              (λ _,
                 echo_info "Exported mongo databases successfully" ;;
                 mysql_root_pwd <- config_get cfg "MYSQL_ROOT_PASSWORD" ;;
                 _ <- docker_compose runner (mysql_command mysql_root_pwd now) ;;
                 echo_info "Exported mysql databases successfully" ;;
                 lms_host <- config_get cfg "LMS_HOST" ;;
                 ensure_file_directory_exists
                   (backup_path (ctx_root context) (file_name lms_host now)) ;;
                 tarfile_open
                   (backup_path (ctx_root context) (file_name lms_host now)) ;;
                 finally
                   (backup_add_loop (dirFiles (ctx_root context) now) ;;
                    echo_info ("Created backup file "
                               +:+ file_name lms_host now +:+ " successfully") ;;
                    backup_cleanup (mongodb_dump_path (ctx_root context) now)
                      (mysql_dump_path (ctx_root context) now) ;;
                    backup_upload cfg
                      (backup_path (ctx_root context) (file_name lms_host now))
                      (file_name lms_host now))
                   (tar_close
                      (backup_path (ctx_root context) (file_name lms_host now))))
              w).
  { unfold backup.
    rewrite (bind_ok _ _ w w cfg) by (unfold of_result; by rewrite Hload).
    rewrite (bind_ok _ _ w w runner) by (unfold of_result; by rewrite Hrunner).
    reflexivity. }
  assert (Hdc1 : ∀ r, fst (run_docker_compose a1 (fs w)) = r →
            docker_compose runner (mongodb_command now) w = (r, after_tool a1 w)).
  { intros r <-. apply docker_compose_eq. }
  rewrite Hstart. clear Hstart.
  split; [|split].
  - intros e He. by apply bind_raise, Hdc1.
  - intros c Hc.
    rewrite (bind_ok _ _ _ _ _ (Hdc1 _ Hc)).
    rewrite (bind_ok _ _ _ w1 tt) by reflexivity.
    match goal with
    | |- ∃ rest, events (snd (?m w1)) = _ =>
        assert (Hm : emits (λ _, True) m)
          by (repeat first [ apply emits_backup_cleanup; intros
                           | apply emits_backup_upload; intros
                           | emits_step ]; done);
        destruct (Hm w1) as (l & E & _)
    end.
    exists l. rewrite E. simpl. by rewrite <- !app_assoc.
  - intros c pwd Hc Hpwd a2.
    assert (Hdc2 : ∀ r, fst (run_docker_compose a2 (fs w1)) = r →
              docker_compose runner (mysql_command pwd now) w1
              = (r, after_tool a2 w1)).
    { intros r <-. apply docker_compose_eq. }
    assert (Hget : config_get cfg "MYSQL_ROOT_PASSWORD" w1 = (Ok pwd, w1)).
    { unfold config_get, of_result, getitem. by rewrite Hpwd. }
    rewrite (bind_ok _ _ _ _ _ (Hdc1 _ Hc)).
    rewrite (bind_ok _ _ _ w1 tt) by reflexivity.
    rewrite (bind_ok _ _ _ _ _ Hget).
    split.
    + intros e He. by apply bind_raise, Hdc2.
    + intros c2 Hc2.
      rewrite (bind_ok _ _ _ _ _ (Hdc2 _ Hc2)).
      set (w2 := log (EvEcho "Exported mysql databases successfully")
                     (after_tool a2 w1)).
      rewrite (bind_ok _ _ _ w2 tt) by reflexivity.
      split.
      * match goal with
        | |- ∃ rest, events (snd (?m w2)) = _ =>
            assert (Hm : emits (λ _, True) m)
              by (repeat first [ apply emits_backup_cleanup; intros
                               | apply emits_backup_upload; intros
                               | emits_step ]; done);
            destruct (Hm w2) as (l & E & _)
        end.
        exists l. rewrite E. simpl. by rewrite <- !app_assoc.
      * intros host Hhost bp.
        assert (Hget2 : config_get cfg "LMS_HOST" w2 = (Ok host, w2)).
        { unfold config_get, of_result, getitem. by rewrite Hhost. }
        rewrite (bind_ok _ _ _ _ _ Hget2).
        change (backup_path (ctx_root context) (file_name host now)) with bp.
        assert (Hpre : events w2
                       = events w
                         ++ [EvDockerCompose a1;
                             EvEcho "Exported mongo databases successfully";
                             EvDockerCompose a2;
                             EvEcho "Exported mysql databases successfully"]).
        { simpl. by rewrite <- !app_assoc. }
        assert (Hfs2 : snd (run_docker_compose a2 (fs w1)) = fs w2)
          by reflexivity.
        clearbody w2.
        assert (Hens : ∀ r s3, run_ensure_dir bp (fs w2) = (r, s3) →
                  ensure_file_directory_exists bp w2
                  = (r, set_fs s3 (log (EvEnsureDir bp) w2))).
        { intros r s3 Hr. unfold ensure_file_directory_exists. by rewrite Hr. }
        split.
        -- pose proof (Hens _ _ (surjective_pairing _)) as He.
           destruct (fst (run_ensure_dir bp (fs w2))) as [[]|e].
           ++ rewrite (bind_ok _ _ _ _ _ He).
              match goal with
              | |- ∃ rest, events (snd (?m ?w3)) = _ =>
                  assert (Hm : emits (λ _, True) m)
                    by (repeat first [ apply emits_backup_cleanup; intros
                                     | apply emits_backup_upload; intros
                                     | emits_step ]; done);
                  destruct (Hm w3) as (l & E & _)
              end.
              exists l. rewrite E. simpl events. rewrite Hpre.
              by rewrite <- !app_assoc.
           ++ rewrite (bind_raise _ _ _ _ _ He).
              exists []. simpl events. rewrite Hpre.
              by rewrite <- !app_assoc.
        -- intros s3 Hr. rewrite Hfs2 in Hr.
           rewrite (bind_ok _ _ _ _ _ (Hens _ _ Hr)).
           set (w3 := set_fs s3 (log (EvEnsureDir bp) w2)).
           assert (Hopen : ∃ r w4, tarfile_open bp w3 = (r, w4)
                                   ∧ events w4 = events w3 ++ [EvTarOpen bp]).
           { unfold tarfile_open. destruct (tar_open_error bp (fs w3)); eauto. }
           destruct Hopen as ([[]|e] & w4 & Hopen & E4).
           ++ rewrite (bind_ok _ _ _ _ _ Hopen).
              match goal with
              | |- ∃ rest, events (snd (?m w4)) = _ =>
                  assert (Hm : emits (λ _, True) m)
                    by (repeat first [ apply emits_backup_cleanup; intros
                                     | apply emits_backup_upload; intros
                                     | emits_step ]; done);
                  destruct (Hm w4) as (l & E & _)
              end.
              exists l. rewrite E, E4. simpl events. rewrite Hpre.
              by rewrite <- !app_assoc.
           ++ rewrite (bind_raise _ _ _ _ _ Hopen).
              exists []. simpl snd. rewrite E4. simpl events. rewrite Hpre.
              by rewrite <- !app_assoc.
Qed.

(** The upload block on its own, for any path and name. When
    [BACKUP_ENABLED] is absent or does not hold, the block leaves the
    world as it is and the pipeline logs no network event at all. When it
    holds and the upload succeeds, the file is removed. When the upload
    raises [FileNotFoundError] or [NoCredentialsError], the matching
    message is logged and the files are left as they were. *)
Lemma backup_upload_stage (context : Context) (now : string)
  (cfg : Config) (bp name : string) (w : World) :
  ((cfg !! "BACKUP_ENABLED" = None
    ∨ ∃ v, cfg !! "BACKUP_ENABLED" = Some v ∧ truthy v = false) →
   backup_upload cfg bp name w = (Ok tt, w)
   ∧ (config_load (ctx_root context) = Ok cfg →
      emits (λ e, is_network e = false) (backup context now)))
  ∧ (∀ v access secret bucket,
       cfg !! "BACKUP_ENABLED" = Some v → truthy v = true →
       cfg !! "BACKUP_S3_ACCESS_KEY" = Some access →
       cfg !! "BACKUP_S3_SECRET_KEY" = Some secret →
       cfg !! "BACKUP_S3_BUCKET_NAME" = Some bucket →
       (upload_error bp bucket name (fs w) = None →
        os_remove_error bp (fs w) = None →
        ∃ w', backup_upload cfg bp name w = (Ok tt, w')
              ∧ (bp ∉ fs w')
              ∧ events w'
                = events w
                  ++ [EvBotoClient access secret;
                      EvUpload bp bucket name;
                      EvEcho ("Uploaded backup file " +:+ name
                              +:+ " to S3 successfully")]
                  ++ (if bool_decide (bp ∈ fs w) then [EvRemove bp] else []))
       ∧ (∀ e, upload_error bp bucket name (fs w) = Some e →
               is_FileNotFoundError e = true →
               backup_upload cfg bp name w
               = (Ok tt,
                  mkWorld (fs w) (tty w)
                    (events w
                     ++ [EvBotoClient access secret;
                         EvUpload bp bucket name;
                         EvEcho ("The backup file " +:+ name
                                 +:+ " was not found")])))
       ∧ (upload_error bp bucket name (fs w) = Some NoCredentialsError →
          backup_upload cfg bp name w
          = (Ok tt,
             mkWorld (fs w) (tty w)
               (events w
                ++ [EvBotoClient access secret;
                    EvUpload bp bucket name;
                    EvEcho "The S3 credential is not available"])))).
Proof.
  split.
  - intros Hoff. split.
    + by rewrite backup_upload_disabled.
    + intros Hload w0. unfold backup.
      rewrite (bind_ok _ _ w0 w0 cfg) by (unfold of_result; by rewrite Hload).
      match goal with
      | |- ∃ l, events (snd (?m w0)) = _ ∧ _ =>
          assert (Hm : emits (λ e, is_network e = false) m)
      end; [|exact (Hm w0)].
      repeat first
        [ apply emits_backup_cleanup; intros
        | rewrite (backup_upload_disabled cfg) by exact Hoff
        | emits_step ]; done.
  - intros v access secret bucket Hon Hv Hacc Hsec Hbucket.
    assert (Hrun : ∀ X,
      try_except
        (s3_upload_file bp bucket name ;;
         echo_info ("Uploaded backup file " +:+ name +:+ " to S3 successfully") ;;
         e <- os_path_exists bp ;;
         if e then os_remove bp else ret tt)
        (λ e, is_FileNotFoundError e || is_NoCredentialsError e)
        (λ e, if is_FileNotFoundError e
              then echo_info ("The backup file " +:+ name +:+ " was not found")
              else echo_info "The S3 credential is not available")
        (log (EvBotoClient access secret) w) = X →
      backup_upload cfg bp name w = X).
    { intros X <-. unfold backup_upload. rewrite Hon, Hv.
      unfold bind at 1, config_get, of_result, getitem. rewrite Hacc.
      unfold bind at 1. rewrite Hsec. unfold bind at 1. rewrite Hbucket.
      reflexivity. }
    split; [|split].
    + intros Hup Hrm. rewrite (Hrun _ eq_refl).
      unfold try_except, bind, s3_upload_file, echo_info, os_path_exists,
        os_remove. simpl. rewrite Hup. simpl.
      case_bool_decide as Hex; simpl.
      * rewrite Hrm. eexists. split; [reflexivity|]. simpl.
        split; [|by rewrite <- !app_assoc].
        intros [_ Hn]%elem_of_difference. apply Hn. by apply elem_of_singleton.
      * eexists. split; [reflexivity|]. simpl.
        split; [done|]. by rewrite <- !app_assoc.
    + intros e Hup He. apply Hrun.
      unfold try_except, bind, s3_upload_file, echo_info. simpl.
      rewrite Hup. simpl. rewrite He. simpl.
      unfold log. simpl. by rewrite <- !app_assoc.
    + intros Hup. apply Hrun.
      unfold try_except, bind, s3_upload_file, echo_info. simpl.
      rewrite Hup. simpl. unfold log. simpl. by rewrite <- !app_assoc.
Qed.

(** C8. In every run of [backup] that completes, the archive is
    [<LMS_HOST>_<now>.tar.gz] in the backup directory, with [now] the
    timestamp of the exports; it is opened once, each of the six sources
    (the two dumps, the three data directories, the configuration file)
    is added once, in order, under its base name, and no base name holds
    a ["/"]. *)
Theorem backup_archive_entries (context : Context) (now : string)
  (cfg : Config) (host : value) (w w' : World) :
  config_load (ctx_root context) = Ok cfg →
  cfg !! "LMS_HOST" = Some host →
  backup context now w = (Ok tt, w') →
  let root := ctx_root context in
  let bp := data_path root ["backup"; str host +:+ "_" +:+ now +:+ ".tar.gz"] in
  let sources :=
    [ data_path root ["mongodb/dump_" +:+ now +:+ ".mongodb"];
      data_path root ["mysql/dump_" +:+ now +:+ ".sql"];
      data_path root ["cms"];
      data_path root ["lms"];
      data_path root ["openedx-media"];
      root_dir root +:+ "/config.yml" ] in
  (∃ l1 l2,
     events w'
     = events w ++ l1 ++ [EvTarOpen bp]
       ++ map (λ p, EvTarAdd p (basename p)) sources ++ l2 ++ [EvTarClose bp]
     ∧ Forall (λ e, is_tar e = false) l1
     ∧ Forall (λ e, is_tar e = false) l2)
  ∧ Forall (λ p, has_char "/" (basename p) = false) sources
  ∧ basename (root_dir root +:+ "/config.yml") = "config.yml".
Proof.
  intros Hload Hhost Hrun root bp sources. split; [|split].
  - assert (Har : archives bp sources (backup context now));
      [|exact (Har w tt w' Hrun)].
    clear Hrun. unfold backup. rewrite Hload. apply archives_known.
    apply archives_bind; [emits_tac|]. intros runner.
    apply archives_bind; [emits_tac|]. intros _.
    apply archives_bind; [emits_tac|]. intros _.
    apply archives_bind; [emits_tac|]. intros pwd.
    apply archives_bind; [emits_tac|]. intros _.
    apply archives_bind; [emits_tac|]. intros _.
    unfold config_get at 1, getitem. rewrite Hhost. apply archives_known.
    apply archives_bind; [emits_tac|]. intros _.
    apply archives_core.
    repeat first
      [ apply emits_backup_cleanup; intros
      | apply emits_backup_upload; intros
      | emits_step ]; done.
  - apply Forall_forall. intros p _. apply basename_no_slash.
  - by apply basename_join.
Qed.

Lemma reaches_refl {A} (tail : M A) : reaches tail tail.
Proof.
  intros w. right. exists w, []. rewrite app_nil_r.
  split; [done|]. split; [apply Forall_nil_2|done].
Qed.

Lemma reaches_bind {A B} (tail : M B) (m : M A) (k : A → M B) :
  emits (λ ev, is_network ev = false) m → (∀ a, reaches tail (k a)) →
  reaches tail (bind m k).
Proof.
  intros Hm Hk w. destruct (Hm w) as (l0 & E0 & F0). unfold bind.
  destruct (m w) as [[a|e] w1]; simpl in *.
  - destruct (Hk a w1) as [(e & w2 & l & Hrun & E & F)|(w4 & l & E & F & Hrun)].
    + left. exists e, w2, (l0 ++ l). rewrite E, E0, app_assoc.
      split; [done|]. split; [done|]. by apply Forall_app.
    + right. exists w4, (l0 ++ l). rewrite E, E0, app_assoc.
      split; [done|]. split; [by apply Forall_app|done].
  - left. by exists e, w1, l0.
Qed.

Lemma reaches_known {A B} (tail : M B) (a : A) (k : A → M B) :
  reaches tail (k a) → reaches tail (bind (of_result (Ok a)) k).
Proof. intros Hk w. exact (Hk w). Qed.

Lemma reaches_finally_bind {A B} (tail : M B) (bp : string)
  (m : M A) (k : A → M B) :
  emits (λ ev, is_network ev = false) m →
  (∀ a, reaches tail (finally (k a) (tar_close bp))) →
  reaches tail (finally (bind m k) (tar_close bp)).
Proof.
  intros Hm Hk w. destruct (Hm w) as (l0 & E0 & F0).
  destruct (m w) as [[a|e] w1] eqn:Hmw; simpl in *.
  - assert (Hstep : finally (bind m k) (tar_close bp) w
                    = finally (k a) (tar_close bp) w1).
    { unfold finally, bind. by rewrite Hmw. }
    rewrite Hstep.
    destruct (Hk a w1) as [(e & w2 & l & Hrun & E & F)|(w4 & l & E & F & Hrun)].
    + left. exists e, w2, (l0 ++ l). rewrite E, E0, app_assoc.
      split; [done|]. split; [done|]. by apply Forall_app.
    + right. exists w4, (l0 ++ l). rewrite E, E0, app_assoc.
      split; [done|]. split; [by apply Forall_app|done].
  - left. exists e, (log (EvTarClose bp) w1), (l0 ++ [EvTarClose bp]).
    split; [unfold finally, bind, tar_close; by rewrite Hmw|].
    simpl. rewrite E0, app_assoc. split; [done|].
    apply Forall_app. split; [done|]. by apply Forall_singleton.
Qed.

(** C7, as the code has it. Every run of [backup] either raises before
    the upload stage, without a network event, or ends with the upload
    block run on the archive the pipeline has written, followed by the
    closing of that archive. In that block: when [BACKUP_ENABLED] is
    absent or does not hold, nothing is done (no client, no upload, the
    archive kept) and the whole pipeline logs no network event; when it
    holds and the upload succeeds, the archive is removed; when the upload
    fails because the file is not found or because no credentials are
    available, the matching message is logged and the files are left as
    they were; any other failure of the upload, such as credentials that
    the service refuses, leaves the block as raised, with no message and
    the files as they were. *)
Theorem backup_upload_policy (context : Context) (now : string)
  (cfg : Config) (host : value) (w : World) :
  config_load (ctx_root context) = Ok cfg →
  cfg !! "LMS_HOST" = Some host →
  let name := str host +:+ "_" +:+ now +:+ ".tar.gz" in
  let bp := data_path (ctx_root context) ["backup"; name] in
  ((∃ e w1 l,
      backup context now w = (Raise e, w1)
      ∧ events w1 = events w ++ l
      ∧ Forall (λ ev, is_network ev = false) l)
   ∨ (∃ w4 l,
        events w4 = events w ++ l
        ∧ Forall (λ ev, is_network ev = false) l
        ∧ backup context now w
          = (fst (backup_upload cfg bp name w4),
             log (EvTarClose bp) (snd (backup_upload cfg bp name w4)))))
  ∧ ((cfg !! "BACKUP_ENABLED" = None
      ∨ ∃ v, cfg !! "BACKUP_ENABLED" = Some v ∧ truthy v = false) →
     (∀ u, backup_upload cfg bp name u = (Ok tt, u))
     ∧ emits (λ ev, is_network ev = false) (backup context now))
  ∧ (∀ v access secret bucket u,
       cfg !! "BACKUP_ENABLED" = Some v → truthy v = true →
       cfg !! "BACKUP_S3_ACCESS_KEY" = Some access →
       cfg !! "BACKUP_S3_SECRET_KEY" = Some secret →
       cfg !! "BACKUP_S3_BUCKET_NAME" = Some bucket →
       (upload_error bp bucket name (fs u) = None →
        os_remove_error bp (fs u) = None →
        ∃ u', backup_upload cfg bp name u = (Ok tt, u')
              ∧ (bp ∉ fs u')
              ∧ events u'
                = events u
                  ++ [EvBotoClient access secret;
                      EvUpload bp bucket name;
                      EvEcho ("Uploaded backup file " +:+ name
                              +:+ " to S3 successfully")]
                  ++ (if bool_decide (bp ∈ fs u) then [EvRemove bp] else []))
       ∧ (∀ e, upload_error bp bucket name (fs u) = Some e →
               is_FileNotFoundError e = true →
               backup_upload cfg bp name u
               = (Ok tt,
                  mkWorld (fs u) (tty u)
                    (events u
                     ++ [EvBotoClient access secret;
                         EvUpload bp bucket name;
                         EvEcho ("The backup file " +:+ name
                                 +:+ " was not found")])))
       ∧ (upload_error bp bucket name (fs u) = Some NoCredentialsError →
          backup_upload cfg bp name u
          = (Ok tt,
             mkWorld (fs u) (tty u)
               (events u
                ++ [EvBotoClient access secret;
                    EvUpload bp bucket name;
                    EvEcho "The S3 credential is not available"])))
       ∧ (∀ e, upload_error bp bucket name (fs u) = Some e →
               is_FileNotFoundError e = false →
               is_NoCredentialsError e = false →
               backup_upload cfg bp name u
               = (Raise e,
                  mkWorld (fs u) (tty u)
                    (events u
                     ++ [EvBotoClient access secret;
                         EvUpload bp bucket name])))).
Proof.
  intros Hload Hhost name bp. split; [|split].
  - assert (Hreach : reaches (finally (backup_upload cfg bp name) (tar_close bp))
                       (backup context now)).
    { unfold backup. rewrite Hload. apply reaches_known.
      apply reaches_bind; [emits_tac|]. intros runner.
      apply reaches_bind; [emits_tac|]. intros _.
      apply reaches_bind; [emits_tac|]. intros _.
      apply reaches_bind; [emits_tac|]. intros pwd.
      apply reaches_bind; [emits_tac|]. intros _.
      apply reaches_bind; [emits_tac|]. intros _.
      unfold config_get at 1, getitem. rewrite Hhost. apply reaches_known.
      apply reaches_bind; [emits_tac|]. intros _.
      apply reaches_bind; [emits_tac|]. intros _.
      apply reaches_finally_bind; [emits_tac|]. intros _.
      apply reaches_finally_bind; [emits_tac|]. intros _.
      apply reaches_finally_bind; [by apply emits_backup_cleanup|]. intros _.
      apply reaches_refl. }
    destruct (Hreach w) as [Hraise|(w4 & l & E & F & Hrun)]; [by left|].
    right. exists w4, l. split; [done|]. split; [done|].
    rewrite Hrun. unfold finally, tar_close.
    by destruct (backup_upload cfg bp name w4) as [r5 w5].
  - intros Hoff. split.
    + intros u.
      exact (proj1 (proj1 (backup_upload_stage context now cfg bp name u) Hoff)).
    + exact (proj2 (proj1 (backup_upload_stage context now cfg bp name w) Hoff)
               Hload).
  - intros v access secret bucket u Hon Hv Hacc Hsec Hbucket.
    destruct (proj2 (backup_upload_stage context now cfg bp name u)
                v access secret bucket Hon Hv Hacc Hsec Hbucket)
      as (Hok & Hnf & Hnc).
    split; [exact Hok|]. split; [exact Hnf|]. split; [exact Hnc|].
    intros e Hup Hf Hn. unfold backup_upload. rewrite Hon, Hv.
    unfold bind at 1, config_get, of_result, getitem. rewrite Hacc.
    unfold bind at 1. rewrite Hsec. unfold bind at 1. rewrite Hbucket.
    unfold bind at 1, boto3_client, try_except, bind, s3_upload_file.
    simpl. rewrite Hup, Hf, Hn. simpl.
    unfold log. simpl. by rewrite <- app_assoc.
Qed.

End BackupClaims.

(** C6, as stated, fails. On a host that holds the data directories and
    the configuration file, with an invoker that returns the exit code of
    the tool and a tool that exits with status 1 and writes no dump, both
    exports fail; yet the mongodb export is confirmed, the mysql export is
    invoked and confirmed, and the archive is opened. The pipeline only
    stops when [tar.add] does not find the first dump. *)
Lemma backup_continues_after_failed_export :
  run_docker_compose (Externals:=Scenario.failing_exports)
    ["--project-name"; "tutor_dev"; "exec"; "mongodb"; "mongodump";
     "--out=/data/db/dump_20240101_000000.mongodb"] (fs Scenario.w_data)
  = (Ok 1%Z, fs Scenario.w_data)
  ∧ fst (backup (H:=Scenario.failing_exports)
           (DevContext (H:=Scenario.failing_exports) "/r")
           "20240101_000000" Scenario.w_data)
    = Raise (OSError true "No such file or directory")
  ∧ events (snd (backup (H:=Scenario.failing_exports)
                   (DevContext (H:=Scenario.failing_exports) "/r")
                   "20240101_000000" Scenario.w_data))
    = [ EvDockerCompose
          ["--project-name"; "tutor_dev"; "exec"; "mongodb"; "mongodump";
           "--out=/data/db/dump_20240101_000000.mongodb"];
        EvEcho "Exported mongo databases successfully";
        EvDockerCompose
          ["--project-name"; "tutor_dev"; "exec"; "mysql"; "mysqldump";
           "--all-databases"; "-u"; "root"; "--password=s3cr3t";
           "--result-file=/var/lib/mysql/dump_20240101_000000.sql"];
        EvEcho "Exported mysql databases successfully";
        EvEnsureDir "/r/data/backup/lms.example.com_20240101_000000.tar.gz";
        EvTarOpen "/r/data/backup/lms.example.com_20240101_000000.tar.gz";
        EvTarAdd "/r/data/mongodb/dump_20240101_000000.mongodb"
          "dump_20240101_000000.mongodb";
        EvTarClose "/r/data/backup/lms.example.com_20240101_000000.tar.gz" ].
Proof. repeat split; vm_compute; reflexivity. Qed.

Lemma backup_export_failure_witness :
  backup (H:=Sample.no_tool) (DevContext (H:=Sample.no_tool) "/r")
    "20240101_000000" Sample.w0
  = (Raise (OSError true "No such file or directory"),
     mkWorld ∅ true
       [ EvDockerCompose
           ["--project-name"; "tutor_dev"; "exec"; "mongodb"; "mongodump";
            "--out=/data/db/dump_20240101_000000.mongodb"] ])
  ∧ ∃ rest,
      events (snd (backup (H:=Scenario.failing_exports)
                     (DevContext (H:=Scenario.failing_exports) "/r")
                     "20240101_000000" Scenario.w_data))
      = [ EvDockerCompose
            ["--project-name"; "tutor_dev"; "exec"; "mongodb"; "mongodump";
             "--out=/data/db/dump_20240101_000000.mongodb"];
          EvEcho "Exported mongo databases successfully";
          EvDockerCompose
            ["--project-name"; "tutor_dev"; "exec"; "mysql"; "mysqldump";
             "--all-databases"; "-u"; "root"; "--password=s3cr3t";
             "--result-file=/var/lib/mysql/dump_20240101_000000.sql"];
          EvEcho "Exported mysql databases successfully";
          EvEnsureDir "/r/data/backup/lms.example.com_20240101_000000.tar.gz";
          EvTarOpen "/r/data/backup/lms.example.com_20240101_000000.tar.gz" ]
        ++ rest.
Proof.
  split.
  - refine (proj1 (backup_export_failure (H:=Sample.no_tool)
                     (DevContext (H:=Sample.no_tool) "/r") "20240101_000000"
                     Sample.cfg Sample.dev_runner Sample.w0 _ _) _ _).
    + reflexivity.
    + vm_compute. reflexivity.
    + reflexivity.
  - refine (proj2 (proj2 (proj2 (proj2 (proj2
              (backup_export_failure (H:=Scenario.failing_exports)
                 (DevContext (H:=Scenario.failing_exports) "/r")
                 "20240101_000000" Sample.cfg Sample.dev_runner
                 Scenario.w_data _ _))
              1%Z (VStr "s3cr3t") _ _) 1%Z _)
              (VStr "lms.example.com") _) (fs Scenario.w_data) _);
      vm_compute; reflexivity.
Defined.

(** C7, as stated, fails. With the upload switched on and credentials
    that the service refuses, the upload raises an error that is neither a
    missing file nor missing credentials: the pipeline ends with that
    error and no cause is logged after the upload call. *)
Lemma backup_upload_refused_not_logged :
  upload_error (Externals:=Scenario.s3_refused)
    "/r/data/backup/lms.example.com_20240101_000000.tar.gz" (VStr "bucket")
    "lms.example.com_20240101_000000.tar.gz" ∅
  = Some (OtherError "S3UploadFailedError: InvalidAccessKeyId")
  ∧ fst (backup (H:=Scenario.s3_refused)
           (DevContext (H:=Scenario.s3_refused) "/r")
           "20240101_000000" Scenario.w_data)
    = Raise (OtherError "S3UploadFailedError: InvalidAccessKeyId")
  ∧ events (snd (backup (H:=Scenario.s3_refused)
                   (DevContext (H:=Scenario.s3_refused) "/r")
                   "20240101_000000" Scenario.w_data))
    = [ EvDockerCompose
          ["--project-name"; "tutor_dev"; "exec"; "mongodb"; "mongodump";
           "--out=/data/db/dump_20240101_000000.mongodb"];
        EvEcho "Exported mongo databases successfully";
        EvDockerCompose
          ["--project-name"; "tutor_dev"; "exec"; "mysql"; "mysqldump";
           "--all-databases"; "-u"; "root"; "--password=s3cr3t";
           "--result-file=/var/lib/mysql/dump_20240101_000000.sql"];
        EvEcho "Exported mysql databases successfully";
        EvEnsureDir "/r/data/backup/lms.example.com_20240101_000000.tar.gz";
        EvTarOpen "/r/data/backup/lms.example.com_20240101_000000.tar.gz";
        EvTarAdd "/r/data/mongodb/dump_20240101_000000.mongodb"
          "dump_20240101_000000.mongodb";
        EvTarAdd "/r/data/mysql/dump_20240101_000000.sql"
          "dump_20240101_000000.sql";
        EvTarAdd "/r/data/cms" "cms";
        EvTarAdd "/r/data/lms" "lms";
        EvTarAdd "/r/data/openedx-media" "openedx-media";
        EvTarAdd "/r/config.yml" "config.yml";
        EvEcho
          "Created backup file lms.example.com_20240101_000000.tar.gz successfully";
        EvSubprocess
          ["sudo"; "rm"; "-rf"; "/r/data/mongodb/dump_20240101_000000.mongodb"];
        EvRemove "/r/data/mysql/dump_20240101_000000.sql";
        EvBotoClient (VStr "AK") (VStr "SK");
        EvUpload "/r/data/backup/lms.example.com_20240101_000000.tar.gz"
          (VStr "bucket") "lms.example.com_20240101_000000.tar.gz";
        EvTarClose "/r/data/backup/lms.example.com_20240101_000000.tar.gz" ].
Proof. repeat split; vm_compute; reflexivity. Qed.

Lemma backup_upload_policy_witness :
  ((∃ e w1 l,
      backup (H:=Scenario.s3_up) (DevContext (H:=Scenario.s3_up) "/r")
        "20240101_000000" Scenario.w_data = (Raise e, w1)
      ∧ events w1 = events Scenario.w_data ++ l
      ∧ Forall (λ ev, is_network ev = false) l)
   ∨ (∃ w4 l,
        events w4 = events Scenario.w_data ++ l
        ∧ Forall (λ ev, is_network ev = false) l
        ∧ backup (H:=Scenario.s3_up) (DevContext (H:=Scenario.s3_up) "/r")
            "20240101_000000" Scenario.w_data
          = (fst (backup_upload (H:=Scenario.s3_up) Sample.cfg_s3
                    "/r/data/backup/lms.example.com_20240101_000000.tar.gz"
                    "lms.example.com_20240101_000000.tar.gz" w4),
             log (EvTarClose
                    "/r/data/backup/lms.example.com_20240101_000000.tar.gz")
               (snd (backup_upload (H:=Scenario.s3_up) Sample.cfg_s3
                       "/r/data/backup/lms.example.com_20240101_000000.tar.gz"
                       "lms.example.com_20240101_000000.tar.gz" w4)))))
  ∧ (∃ u',
       backup_upload (H:=Scenario.s3_up) Sample.cfg_s3
         "/r/data/backup/lms.example.com_20240101_000000.tar.gz"
         "lms.example.com_20240101_000000.tar.gz"
         (mkWorld {["/r/data/backup/lms.example.com_20240101_000000.tar.gz"]}
            true [])
       = (Ok tt, u')
       ∧ ("/r/data/backup/lms.example.com_20240101_000000.tar.gz" ∉ fs u')
       ∧ events u'
         = [ EvBotoClient (VStr "AK") (VStr "SK");
             EvUpload "/r/data/backup/lms.example.com_20240101_000000.tar.gz"
               (VStr "bucket") "lms.example.com_20240101_000000.tar.gz";
             EvEcho
               "Uploaded backup file lms.example.com_20240101_000000.tar.gz to S3 successfully";
             EvRemove "/r/data/backup/lms.example.com_20240101_000000.tar.gz" ])
  ∧ backup_upload (H:=Scenario.s3_refused) Sample.cfg_s3
      "/r/data/backup/lms.example.com_20240101_000000.tar.gz"
      "lms.example.com_20240101_000000.tar.gz"
      (mkWorld {["/r/data/backup/lms.example.com_20240101_000000.tar.gz"]}
         true [])
    = (Raise (OtherError "S3UploadFailedError: InvalidAccessKeyId"),
       mkWorld {["/r/data/backup/lms.example.com_20240101_000000.tar.gz"]}
         true
         [ EvBotoClient (VStr "AK") (VStr "SK");
           EvUpload "/r/data/backup/lms.example.com_20240101_000000.tar.gz"
             (VStr "bucket") "lms.example.com_20240101_000000.tar.gz" ]).
Proof.
  split; [|split].
  - refine (proj1 (backup_upload_policy (H:=Scenario.s3_up)
                     (DevContext (H:=Scenario.s3_up) "/r") "20240101_000000"
                     Sample.cfg_s3 (VStr "lms.example.com") Scenario.w_data
                     _ _)).
    + reflexivity.
    + vm_compute. reflexivity.
  - refine (proj1 (proj2 (proj2 (backup_upload_policy (H:=Scenario.s3_up)
                     (DevContext (H:=Scenario.s3_up) "/r") "20240101_000000"
                     Sample.cfg_s3 (VStr "lms.example.com") Scenario.w_data
                     _ _))
                     (VBool true) (VStr "AK") (VStr "SK") (VStr "bucket")
                     (mkWorld
                        {["/r/data/backup/lms.example.com_20240101_000000.tar.gz"]}
                        true [])
                     _ _ _ _ _) _ _);
      vm_compute; reflexivity.
  - refine (proj2 (proj2 (proj2 (proj2 (proj2 (backup_upload_policy
                     (H:=Scenario.s3_refused)
                     (DevContext (H:=Scenario.s3_refused) "/r")
                     "20240101_000000"
                     Sample.cfg_s3 (VStr "lms.example.com") Scenario.w_data
                     _ _))
                     (VBool true) (VStr "AK") (VStr "SK") (VStr "bucket")
                     (mkWorld
                        {["/r/data/backup/lms.example.com_20240101_000000.tar.gz"]}
                        true [])
                     _ _ _ _ _)))
              (OtherError "S3UploadFailedError: InvalidAccessKeyId") _ _ _);
      vm_compute; reflexivity.
Defined.

Lemma backup_archive_entries_witness :
  (∃ l1 l2,
     events (snd (backup (H:=Sample.quiet) (DevContext (H:=Sample.quiet) "/r")
                    "20240101_000000" Sample.w0))
     = l1
       ++ [EvTarOpen "/r/data/backup/lms.example.com_20240101_000000.tar.gz"]
       ++ [ EvTarAdd "/r/data/mongodb/dump_20240101_000000.mongodb"
              "dump_20240101_000000.mongodb";
            EvTarAdd "/r/data/mysql/dump_20240101_000000.sql"
              "dump_20240101_000000.sql";
            EvTarAdd "/r/data/cms" "cms";
            EvTarAdd "/r/data/lms" "lms";
            EvTarAdd "/r/data/openedx-media" "openedx-media";
            EvTarAdd "/r/config.yml" "config.yml" ]
       ++ l2
       ++ [EvTarClose "/r/data/backup/lms.example.com_20240101_000000.tar.gz"]
     ∧ Forall (λ e, is_tar e = false) l1
     ∧ Forall (λ e, is_tar e = false) l2)
  ∧ Forall (λ p, has_char "/" (basename p) = false)
      [ "/r/data/mongodb/dump_20240101_000000.mongodb";
        "/r/data/mysql/dump_20240101_000000.sql";
        "/r/data/cms"; "/r/data/lms"; "/r/data/openedx-media";
        "/r/config.yml" ]
  ∧ basename "/r/config.yml" = "config.yml".
Proof.
  refine (backup_archive_entries (H:=Sample.quiet)
            (DevContext (H:=Sample.quiet) "/r") "20240101_000000"
            Sample.cfg (VStr "lms.example.com") Sample.w0
            (snd (backup (H:=Sample.quiet) (DevContext (H:=Sample.quiet) "/r")
                    "20240101_000000" Sample.w0)) _ _ _).
  - reflexivity.
  - vm_compute. reflexivity.
  - vm_compute. reflexivity.
Defined.

(* ===================================================================== *)
(* Further properties of the commands                                    *)
(* ===================================================================== *)

Section StartStop.
Context `{Externals}.

Lemma quiet_call_eq (runner : ComposeJobRunner) (command : list string)
  (w : World) :
  (_ <- docker_compose runner command ;; ret tt) w
  = (match fst (run_docker_compose (compose_args runner (fs w) command) (fs w))
     with
     | Ok _ => Ok tt
     | Raise e => Raise e
     end,
     after_tool (compose_args runner (fs w) command) w).
Proof.
  unfold bind. rewrite docker_compose_eq. by destruct (fst _).
Qed.

Lemma start_eq (context : Context) (skip_build detach : bool)
  (services : list string) (cfg : Config) (runner : ComposeJobRunner)
  (w : World) :
  config_load (ctx_root context) = Ok cfg →
  job_runner context cfg = Ok runner →
  start context skip_build detach services w
  = (_ <- docker_compose runner
            (["up"; "--remove-orphans"]
             ++ (if skip_build then [] else ["--build"])
             ++ (if detach then ["-d"] else []) ++ services) ;; ret tt) w.
Proof.
  intros Hload Hrunner. unfold start.
  rewrite (bind_ok _ _ w w cfg) by (unfold of_result; by rewrite Hload).
  rewrite (bind_ok _ _ w w runner) by (unfold of_result; by rewrite Hrunner).
  by destruct skip_build, detach.
Qed.

Lemma stop_eq (context : Context) (services : list string) (cfg : Config)
  (runner : ComposeJobRunner) (w : World) :
  config_load (ctx_root context) = Ok cfg →
  job_runner context cfg = Ok runner →
  stop context services w
  = (_ <- docker_compose runner ("stop" :: services) ;; ret tt) w.
Proof.
  intros Hload Hrunner. unfold stop.
  rewrite (bind_ok _ _ w w cfg) by (unfold of_result; by rewrite Hload).
  by rewrite (bind_ok _ _ w w runner) by (unfold of_result; by rewrite Hrunner).
Qed.

(** [start] makes one invocation: [up --remove-orphans], then [--build]
    unless the build is skipped, then [-d] when detached, then the
    services. It returns normally whatever exit code the tool gives, and
    fails only with the error the invocation raises. *)
Theorem start_invocation (context : Context) (skip_build detach : bool)
  (services : list string) (cfg : Config) (runner : ComposeJobRunner)
  (w : World) :
  config_load (ctx_root context) = Ok cfg →
  job_runner context cfg = Ok runner →
  let args :=
    compose_args runner (fs w)
      (["up"; "--remove-orphans"]
       ++ (if skip_build then [] else ["--build"])
       ++ (if detach then ["-d"] else []) ++ services) in
  events (snd (start context skip_build detach services w))
  = events w ++ [EvDockerCompose args]
  ∧ (∀ c, fst (run_docker_compose args (fs w)) = Ok c →
          fst (start context skip_build detach services w) = Ok tt)
  ∧ (∀ e, fst (run_docker_compose args (fs w)) = Raise e →
          fst (start context skip_build detach services w) = Raise e).
Proof.
  intros Hload Hrunner args.
  rewrite (start_eq _ _ _ _ cfg runner) by done. rewrite quiet_call_eq.
  fold args. simpl. split; [done|]. split; by intros ? ->.
Qed.

(** [reboot] stops and then starts the same services. The start always
    asks for a build, and its file set is filtered in the files the stop
    left behind. A stop that returns, with whatever exit code, is followed
    by the start; a stop whose invocation raises ends the command, and
    nothing is started. *)
Theorem reboot_sequence (context : Context) (detach : bool)
  (services : list string) (cfg : Config) (runner : ComposeJobRunner)
  (w : World) :
  config_load (ctx_root context) = Ok cfg →
  job_runner context cfg = Ok runner →
  let a1 := compose_args runner (fs w) ("stop" :: services) in
  let s1 := snd (run_docker_compose a1 (fs w)) in
  let a2 :=
    compose_args runner s1
      (["up"; "--remove-orphans"; "--build"]
       ++ (if detach then ["-d"] else []) ++ services) in
  (∀ c, fst (run_docker_compose a1 (fs w)) = Ok c →
        events (snd (reboot context detach services w))
        = events w ++ [EvDockerCompose a1; EvDockerCompose a2])
  ∧ (∀ e, fst (run_docker_compose a1 (fs w)) = Raise e →
          reboot context detach services w = (Raise e, after_tool a1 w)).
Proof.
  intros Hload Hrunner a1 s1 a2.
  assert (Hstop : stop context services w
                  = (match fst (run_docker_compose a1 (fs w)) with
                     | Ok _ => Ok tt
                     | Raise e => Raise e
                     end, after_tool a1 w)).
  { rewrite (stop_eq _ _ cfg runner) by done. apply quiet_call_eq. }
  split.
  - intros c Hc. rewrite Hc in Hstop. unfold reboot.
    rewrite (bind_ok _ _ _ _ _ Hstop).
    rewrite (start_eq _ _ _ _ cfg runner) by done. rewrite quiet_call_eq.
    simpl. by rewrite <- app_assoc.
  - intros e He. rewrite He in Hstop. unfold reboot.
    by rewrite (bind_raise _ _ _ _ _ Hstop).
Qed.

(** When the context cannot build its runner, [start], [stop] and
    [backup] fail with the error of the construction before anything is
    invoked or logged. *)
Theorem no_runner_no_invocation (context : Context) (cfg : Config) (e : exn)
  (skip_build detach : bool) (services : list string) (now : string)
  (w : World) :
  config_load (ctx_root context) = Ok cfg →
  job_runner context cfg = Raise e →
  start context skip_build detach services w = (Raise e, w)
  ∧ stop context services w = (Raise e, w)
  ∧ backup context now w = (Raise e, w).
Proof.
  intros Hload Hrunner.
  assert (Hr : of_result (job_runner context cfg) w = (Raise e, w))
    by (unfold of_result; by rewrite Hrunner).
  assert (Hc : of_result (config_load (ctx_root context)) w = (Ok cfg, w))
    by (unfold of_result; by rewrite Hload).
  split; [|split].
  - unfold start. rewrite (bind_ok _ _ _ _ _ Hc). by apply bind_raise.
  - unfold stop. rewrite (bind_ok _ _ _ _ _ Hc). by apply bind_raise.
  - unfold backup. rewrite (bind_ok _ _ _ _ _ Hc). by apply bind_raise.
Qed.

End StartStop.

Lemma start_invocation_witness :
  events (snd (start (H:=Sample.exit_1) (DevContext (H:=Sample.exit_1) "/r")
                 false true ["lms"] Sample.w0))
  = [EvDockerCompose
       ["--project-name"; "tutor_dev"; "up"; "--remove-orphans"; "--build";
        "-d"; "lms"]]
  ∧ fst (start (H:=Sample.exit_1) (DevContext (H:=Sample.exit_1) "/r")
           false true ["lms"] Sample.w0) = Ok tt.
Proof.
  assert (Hload : config_load (Externals:=Sample.exit_1)
                    (ctx_root (DevContext (H:=Sample.exit_1) "/r"))
                  = Ok Sample.cfg) by reflexivity.
  assert (Hrunner : job_runner (DevContext (H:=Sample.exit_1) "/r") Sample.cfg
                    = Ok Sample.dev_runner) by (vm_compute; reflexivity).
  split.
  - exact (proj1 (start_invocation (H:=Sample.exit_1)
                    (DevContext (H:=Sample.exit_1) "/r") false true ["lms"]
                    Sample.cfg Sample.dev_runner Sample.w0 Hload Hrunner)).
  - exact (proj1 (proj2 (start_invocation (H:=Sample.exit_1)
                    (DevContext (H:=Sample.exit_1) "/r") false true ["lms"]
                    Sample.cfg Sample.dev_runner Sample.w0 Hload Hrunner))
             1%Z eq_refl).
Defined.

Lemma reboot_sequence_witness :
  events (snd (reboot (H:=Sample.exit_1) (DevContext (H:=Sample.exit_1) "/r")
                 false ["lms"] Sample.w0))
  = [ EvDockerCompose ["--project-name"; "tutor_dev"; "stop"; "lms"];
      EvDockerCompose
        ["--project-name"; "tutor_dev"; "up"; "--remove-orphans"; "--build";
         "lms"] ].
Proof.
  refine (proj1 (reboot_sequence (H:=Sample.exit_1)
                   (DevContext (H:=Sample.exit_1) "/r") false ["lms"]
                   Sample.cfg Sample.dev_runner Sample.w0 _ _) 1%Z _).
  - reflexivity.
  - vm_compute. reflexivity.
  - reflexivity.
Defined.

Lemma no_runner_no_invocation_witness :
  start (H:=Sample.quiet) (BaseComposeContext "/r") false false [] Sample.w0
  = (Raise NotImplementedError, Sample.w0)
  ∧ stop (H:=Sample.quiet) (BaseComposeContext "/r") [] Sample.w0
    = (Raise NotImplementedError, Sample.w0)
  ∧ backup (H:=Sample.quiet) (BaseComposeContext "/r") "20240101_000000"
      Sample.w0
    = (Raise NotImplementedError, Sample.w0).
Proof.
  apply (no_runner_no_invocation (H:=Sample.quiet) (BaseComposeContext "/r")
           Sample.cfg NotImplementedError false false [] "20240101_000000"
           Sample.w0); reflexivity.
Defined.

(* --------------------------------------------------------------------- *)
(* restart, beyond the two scenarios                                     *)
(* --------------------------------------------------------------------- *)

Section RestartMore.
Context `{Externals}.

Lemma restart_loop_eq (cfg : Config) (lms cms : value)
  (services command : list string) (w : World) :
  cfg !! "RUN_LMS" = Some lms → cfg !! "RUN_CMS" = Some cms →
  restart_loop cfg services command w
  = (Ok (command ++ flat_map (restart_expand lms cms) services), w).
Proof.
  intros Hlms Hcms. revert command.
  induction services as [|s rest IH]; intros command; simpl.
  - unfold ret. by rewrite app_nil_r.
  - unfold restart_expand at 1. destruct (String.eqb s "openedx").
    + unfold bind, config_get, of_result, getitem. rewrite Hlms, Hcms.
      rewrite IH. destruct (truthy lms), (truthy cms); simpl;
        by rewrite <- ?app_assoc.
    + rewrite IH. by rewrite <- app_assoc.
Qed.

Lemma restart_loop_plain (cfg : Config) (services command : list string)
  (w : World) :
  "openedx" ∉ services →
  restart_loop cfg services command w = (Ok (command ++ services), w).
Proof.
  revert command. induction services as [|s rest IH]; intros command Hno; simpl.
  - unfold ret. by rewrite app_nil_r.
  - apply not_elem_of_cons in Hno as [Hs Hrest].
    destruct (String.eqb s "openedx") eqn:E.
    + apply String.eqb_eq in E. congruence.
    + rewrite IH by done. by rewrite <- app_assoc.
Qed.

Lemma restart_loop_missing (cfg : Config) (services command : list string)
  (w : World) :
  "openedx" ∈ services →
  (cfg !! "RUN_LMS" = None →
   restart_loop cfg services command w = (Raise (KeyError "RUN_LMS"), w))
  ∧ (is_Some (cfg !! "RUN_LMS") → cfg !! "RUN_CMS" = None →
     restart_loop cfg services command w = (Raise (KeyError "RUN_CMS"), w)).
Proof.
  revert command. induction services as [|s rest IH]; intros command Hin.
  - by apply elem_of_nil in Hin.
  - simpl. destruct (String.eqb s "openedx") eqn:E.
    + unfold bind, config_get, of_result, getitem. split.
      * by intros ->.
      * intros [lms ->] ->. reflexivity.
    + apply elem_of_cons in Hin as [<-|Hin]; [discriminate E|].
      apply IH, Hin.
Qed.

(** Without ["all"] among the services, [restart] replaces each
    occurrence of ["openedx"] by the LMS pair (when [RUN_LMS] holds)
    followed by the CMS pair (when [RUN_CMS] holds) and keeps every other
    name, in the order given; the result follows [restart] in one
    invocation. *)
Theorem restart_expands_services (context : Context) (services : list string)
  (cfg : Config) (lms cms : value) (runner : ComposeJobRunner) (w : World) :
  "all" ∉ services →
  config_load (ctx_root context) = Ok cfg →
  job_runner context cfg = Ok runner →
  cfg !! "RUN_LMS" = Some lms → cfg !! "RUN_CMS" = Some cms →
  events (snd (restart context services w))
  = events w
    ++ [EvDockerCompose
          (compose_args runner (fs w)
             ("restart" :: flat_map (restart_expand lms cms) services))].
Proof.
  intros Hall Hload Hrunner Hlms Hcms.
  apply (restart_eq context _ _ cfg runner); [done..|].
  unfold restart_command, str_in. rewrite bool_decide_eq_false_2 by done.
  by rewrite (restart_loop_eq cfg lms cms).
Qed.

(** When neither ["all"] nor ["openedx"] is among the services, [restart]
    does not read [RUN_LMS] or [RUN_CMS]: the names are passed as given,
    whatever the configuration holds. *)
Theorem restart_plain_services (context : Context) (services : list string)
  (cfg : Config) (runner : ComposeJobRunner) (w : World) :
  "all" ∉ services → "openedx" ∉ services →
  config_load (ctx_root context) = Ok cfg →
  job_runner context cfg = Ok runner →
  events (snd (restart context services w))
  = events w
    ++ [EvDockerCompose (compose_args runner (fs w) ("restart" :: services))].
Proof.
  intros Hall Hopen Hload Hrunner.
  apply (restart_eq context _ _ cfg runner); [done..|].
  unfold restart_command, str_in. rewrite bool_decide_eq_false_2 by done.
  by rewrite restart_loop_plain.
Qed.

(** When ["openedx"] is to be restarted and [RUN_LMS] is not in the
    configuration, or [RUN_LMS] is there and [RUN_CMS] is not, [restart]
    fails with the [KeyError] of that key; nothing is invoked and the
    world is left as it was. *)
Theorem restart_missing_key (context : Context) (services : list string)
  (cfg : Config) (w : World) :
  "all" ∉ services → "openedx" ∈ services →
  config_load (ctx_root context) = Ok cfg →
  (cfg !! "RUN_LMS" = None →
   restart context services w = (Raise (KeyError "RUN_LMS"), w))
  ∧ (is_Some (cfg !! "RUN_LMS") → cfg !! "RUN_CMS" = None →
     restart context services w = (Raise (KeyError "RUN_CMS"), w)).
Proof.
  intros Hall Hopen Hload.
  assert (Hc : of_result (config_load (ctx_root context)) w = (Ok cfg, w))
    by (unfold of_result; by rewrite Hload).
  destruct (restart_loop_missing cfg services ["restart"] w Hopen) as [H1 H2].
  split.
  - intros Hlms. unfold restart. rewrite (bind_ok _ _ _ _ _ Hc).
    apply bind_raise. unfold restart_command, str_in.
    rewrite bool_decide_eq_false_2 by done. by apply H1.
  - intros Hlms Hcms. unfold restart. rewrite (bind_ok _ _ _ _ _ Hc).
    apply bind_raise. unfold restart_command, str_in.
    rewrite bool_decide_eq_false_2 by done. by apply H2.
Qed.

End RestartMore.

Lemma restart_expands_services_witness :
  events (snd (restart (H:=Sample.quiet) (DevContext (H:=Sample.quiet) "/r")
                 ["nginx"; "openedx"; "mysql"] Sample.w0))
  = [EvDockerCompose
       ["--project-name"; "tutor_dev"; "restart"; "nginx"; "lms";
        "lms-worker"; "mysql"]].
Proof.
  apply (restart_expands_services (H:=Sample.quiet)
           (DevContext (H:=Sample.quiet) "/r") ["nginx"; "openedx"; "mysql"]
           Sample.cfg (VBool true) (VBool false) Sample.dev_runner Sample.w0).
  - rewrite !not_elem_of_cons. repeat split; [discriminate..|apply not_elem_of_nil].
  - reflexivity.
  - vm_compute. reflexivity.
  - vm_compute. reflexivity.
  - vm_compute. reflexivity.
Defined.

Lemma restart_plain_services_witness :
  events (snd (restart (H:=Scenario.bare) (DevContext (H:=Scenario.bare) "/r")
                 ["nginx"; "mysql"] Sample.w0))
  = [EvDockerCompose
       ["--project-name"; "tutor_dev"; "restart"; "nginx"; "mysql"]].
Proof.
  apply (restart_plain_services (H:=Scenario.bare)
           (DevContext (H:=Scenario.bare) "/r") ["nginx"; "mysql"]
           Scenario.cfg_bare Scenario.bare_dev_runner Sample.w0).
  - rewrite !not_elem_of_cons. repeat split; [discriminate..|apply not_elem_of_nil].
  - rewrite !not_elem_of_cons. repeat split; [discriminate..|apply not_elem_of_nil].
  - reflexivity.
  - vm_compute. reflexivity.
Defined.

Lemma restart_missing_key_witness :
  restart (H:=Scenario.bare) (DevContext (H:=Scenario.bare) "/r")
    ["nginx"; "openedx"] Sample.w0
  = (Raise (KeyError "RUN_LMS"), Sample.w0).
Proof.
  refine (proj1 (restart_missing_key (H:=Scenario.bare)
                   (DevContext (H:=Scenario.bare) "/r") ["nginx"; "openedx"]
                   Scenario.cfg_bare Sample.w0 _ _ _) _).
  - rewrite !not_elem_of_cons. repeat split; [discriminate..|apply not_elem_of_nil].
  - apply list_elem_of_further, list_elem_of_here.
  - reflexivity.
  - vm_compute. reflexivity.
Defined.

(* --------------------------------------------------------------------- *)
(* dc, run and runserver                                                 *)
(* --------------------------------------------------------------------- *)

Section DcMore.
Context `{Externals}.

Lemma dc_volume_loop_mounted (root : string) (volumes acc : list string)
  (w : World) :
  first_such (unmounted root (fs w)) volumes = None →
  dc_volume_loop root volumes acc w
  = (Ok (acc ++ flat_map (λ v, ["--volume"; volume_value root v]) volumes), w).
Proof.
  revert acc. induction volumes as [|v rest IH]; intros acc; simpl.
  - intros _. unfold ret. by rewrite app_nil_r.
  - unfold unmounted at 1, volume_value at 1, bind at 1.
    destruct (has_char ":" v); simpl.
    + intros Hrest. rewrite IH by done. by rewrite <- app_assoc.
    + unfold bind at 1, os_path_exists. case_bool_decide; simpl; [|done].
      intros Hrest. rewrite IH by done. by rewrite <- app_assoc.
Qed.

Lemma dc_volume_loop_first (root : string) (volumes acc : list string)
  (w : World) (v : string) :
  first_such (unmounted root (fs w)) volumes = Some v →
  dc_volume_loop root volumes acc w
  = (Raise (missing_bind_mount (get_path root v)), w).
Proof.
  revert acc. induction volumes as [|a rest IH]; intros acc; simpl; [done|].
  unfold unmounted at 1, bind at 1.
  destruct (has_char ":" a); simpl.
  - intros Hrest. by rewrite IH.
  - unfold bind at 1, os_path_exists. case_bool_decide; simpl.
    + intros Hrest. by rewrite IH.
    + by intros [= ->].
Qed.

Lemma dc_command_ok (context : Context) (command : string)
  (args volumes rest : list string) (cfg : Config) (runner : ComposeJobRunner)
  (w : World) :
  config_load (ctx_root context) = Ok cfg →
  parse_volumes args = Ok (volumes, rest) →
  job_runner context cfg = Ok runner →
  first_such (unmounted (ctx_root context) (fs w)) volumes = None →
  dc_command context command args w
  = (_ <- docker_compose runner
            ([command]
             ++ flat_map (λ v, ["--volume"; volume_value (ctx_root context) v])
                  volumes
             ++ rest) ;; ret tt) w.
Proof.
  intros Hload Hparse Hrunner Hmounted. unfold dc_command.
  rewrite (bind_ok _ _ w w cfg) by (unfold of_result; by rewrite Hload).
  rewrite (bind_ok _ _ w w (volumes, rest))
    by (unfold of_result; by rewrite Hparse).
  rewrite (bind_ok _ _ w w _ (dc_volume_loop_mounted _ _ [] w Hmounted)).
  by rewrite (bind_ok _ _ w w runner) by (unfold of_result; by rewrite Hrunner).
Qed.

Lemma dc_command_raise (context : Context) (command : string)
  (args volumes rest : list string) (cfg : Config) (w : World) (v : string) :
  config_load (ctx_root context) = Ok cfg →
  parse_volumes args = Ok (volumes, rest) →
  first_such (unmounted (ctx_root context) (fs w)) volumes = Some v →
  dc_command context command args w
  = (Raise (missing_bind_mount (get_path (ctx_root context) v)), w).
Proof.
  intros Hload Hparse Hfirst. unfold dc_command.
  rewrite (bind_ok _ _ w w cfg) by (unfold of_result; by rewrite Hload).
  rewrite (bind_ok _ _ w w (volumes, rest))
    by (unfold of_result; by rewrite Hparse).
  by rewrite (bind_raise _ _ w w _ (dc_volume_loop_first _ _ [] w v Hfirst)).
Qed.

(** When every bare volume has its bind-mount directory, [dc] makes one
    invocation: the command, then [--volume] and a value for each parsed
    volume in order (a volume with [":"] as given, a bare one as
    [<host directory>:<name>]), then the other arguments. *)
Theorem dc_command_vector (context : Context) (command : string)
  (args volumes rest : list string) (cfg : Config) (runner : ComposeJobRunner)
  (w : World) :
  config_load (ctx_root context) = Ok cfg →
  parse_volumes args = Ok (volumes, rest) →
  job_runner context cfg = Ok runner →
  first_such (unmounted (ctx_root context) (fs w)) volumes = None →
  events (snd (dc_command context command args w))
  = events w
    ++ [EvDockerCompose
          (compose_args runner (fs w)
             ([command]
              ++ flat_map
                   (λ v, ["--volume";
                          if has_char ":" v then v
                          else get_path (ctx_root context) v +:+ ":" +:+ v])
                   volumes
              ++ rest))].
Proof.
  intros Hload Hparse Hrunner Hmounted.
  rewrite (dc_command_ok _ _ _ volumes rest cfg runner) by done.
  by rewrite quiet_call_eq.
Qed.

(** When several bare volumes lack their directory, the error of [dc]
    names the first of them in the order of the arguments; it is raised
    before the runner is built, so it also comes before any failure of
    the runner's construction. *)
Theorem dc_command_first_missing (context : Context) (command : string)
  (args volumes rest : list string) (cfg : Config) (w : World) (v : string) :
  config_load (ctx_root context) = Ok cfg →
  parse_volumes args = Ok (volumes, rest) →
  first_such
    (λ v, negb (has_char ":" v)
          && negb (bool_decide (get_path (ctx_root context) v ∈ fs w)))
    volumes = Some v →
  dc_command context command args w
  = (Raise (missing_bind_mount (get_path (ctx_root context) v)), w).
Proof. apply dc_command_raise. Qed.

(** [run] is [dc run] with [--rm] and, without a terminal, [-T] put in
    front of the arguments: with every bare volume mounted it makes that
    one invocation, and a bare volume without its directory makes it fail
    before anything is invoked. *)
Theorem run_invocation (context : Context) (args volumes rest : list string)
  (cfg : Config) (runner : ComposeJobRunner) (w : World) :
  config_load (ctx_root context) = Ok cfg →
  parse_volumes ("--rm" :: (if tty w then [] else ["-T"]) ++ args)
  = Ok (volumes, rest) →
  (job_runner context cfg = Ok runner →
   first_such (unmounted (ctx_root context) (fs w)) volumes = None →
   events (snd (run context args w))
   = events w
     ++ [EvDockerCompose
           (compose_args runner (fs w)
              (["run"]
               ++ flat_map
                    (λ v, ["--volume"; volume_value (ctx_root context) v])
                    volumes
               ++ rest))])
  ∧ (∀ v, first_such (unmounted (ctx_root context) (fs w)) volumes = Some v →
          run context args w
          = (Raise (missing_bind_mount (get_path (ctx_root context) v)), w)).
Proof.
  intros Hload Hparse.
  assert (Hrun : run context args w
                 = dc_command context "run"
                     ("--rm" :: (if tty w then [] else ["-T"]) ++ args) w).
  { unfold run, bind, is_a_tty. by destruct (tty w). }
  rewrite Hrun. split.
  - intros Hrunner Hmounted.
    rewrite (dc_command_ok _ _ _ volumes rest cfg runner) by done.
    by rewrite quiet_call_eq.
  - intros v Hfirst. by apply (dc_command_raise _ _ _ volumes rest cfg).
Qed.

Lemma runserver_eq (context : Context) (options : list string)
  (service : string) (cfg : Config) (w : World) :
  config_load (ctx_root context) = Ok cfg →
  runserver context options service w
  = ((if str_in service ["lms"; "cms"] then
        host <-
          (if String.eqb service "lms" then config_get cfg "LMS_HOST"
           else config_get cfg "CMS_HOST") ;;
        echo_info
          ("The " +:+ service +:+ " service will be available at http://"
           +:+ str host +:+ ":"
           +:+ pretty (if String.eqb service "lms" then 8000%Z else 8001%Z))
      else ret tt) ;;
     run context (["--service-ports"] ++ options ++ [service])) w.
Proof.
  intros Hload. unfold runserver.
  by rewrite (bind_ok _ _ w w cfg) by (unfold of_result; by rewrite Hload).
Qed.

(** [runserver] announces the LMS on port 8000 at [LMS_HOST] and the CMS
    on port 8001 at [CMS_HOST], reading only the host of the service
    asked for; for any other service it announces nothing. In each case
    it then runs the service with [--service-ports] in front of the
    options. *)
Theorem runserver_announcement (context : Context) (options : list string)
  (cfg : Config) (w : World) :
  config_load (ctx_root context) = Ok cfg →
  (∀ host, cfg !! "LMS_HOST" = Some host →
     runserver context options "lms" w
     = run context ("--service-ports" :: options ++ ["lms"])
         (log (EvEcho ("The lms service will be available at http://"
                       +:+ str host +:+ ":8000")) w))
  ∧ (∀ host, cfg !! "CMS_HOST" = Some host →
       runserver context options "cms" w
       = run context ("--service-ports" :: options ++ ["cms"])
           (log (EvEcho ("The cms service will be available at http://"
                         +:+ str host +:+ ":8001")) w))
  ∧ (∀ service, service ≠ "lms" → service ≠ "cms" →
       runserver context options service w
       = run context ("--service-ports" :: options ++ [service]) w).
Proof.
  intros Hload. split; [|split].
  - intros host Hhost. rewrite (runserver_eq _ _ _ cfg) by done. simpl.
    unfold bind at 1, bind at 1, config_get, of_result, getitem.
    by rewrite Hhost.
  - intros host Hhost. rewrite (runserver_eq _ _ _ cfg) by done. simpl.
    unfold bind at 1, bind at 1, config_get, of_result, getitem.
    by rewrite Hhost.
  - intros service Hl Hc. rewrite (runserver_eq _ _ _ cfg) by done.
    unfold str_in. rewrite bool_decide_eq_false_2; [reflexivity|].
    rewrite !not_elem_of_cons. repeat split; [done..|apply not_elem_of_nil].
Qed.

(** When the host of the service asked for is not in the configuration,
    [runserver] fails with the [KeyError] of that key: nothing is
    announced and nothing is run. *)
Theorem runserver_missing_host (context : Context) (options : list string)
  (cfg : Config) (w : World) :
  config_load (ctx_root context) = Ok cfg →
  (cfg !! "LMS_HOST" = None →
   runserver context options "lms" w = (Raise (KeyError "LMS_HOST"), w))
  ∧ (cfg !! "CMS_HOST" = None →
     runserver context options "cms" w = (Raise (KeyError "CMS_HOST"), w)).
Proof.
  intros Hload. split; intros Hhost; rewrite (runserver_eq _ _ _ cfg) by done;
    simpl; unfold bind at 1, bind at 1, config_get, of_result, getitem;
    by rewrite Hhost.
Qed.

End DcMore.

Lemma dc_command_vector_witness :
  events (snd (dc_command (H:=Sample.quiet) (DevContext (H:=Sample.quiet) "/r")
                 "run" ["--volume=edx-platform"; "-v"; "/a:/b"; "lms"; "bash"]
                 Scenario.w_mounted))
  = [EvDockerCompose
       ["--project-name"; "tutor_dev"; "run";
        "--volume"; "/r/volumes/edx-platform:edx-platform";
        "--volume"; "/a:/b"; "lms"; "bash"]].
Proof.
  apply (dc_command_vector (H:=Sample.quiet) (DevContext (H:=Sample.quiet) "/r")
           "run" ["--volume=edx-platform"; "-v"; "/a:/b"; "lms"; "bash"]
           ["edx-platform"; "/a:/b"] ["lms"; "bash"]
           Sample.cfg Sample.dev_runner Scenario.w_mounted);
    vm_compute; reflexivity.
Defined.

Lemma dc_command_first_missing_witness :
  dc_command (H:=Sample.quiet) (DevContext (H:=Sample.quiet) "/r")
    "run" ["-v"; "a"; "-v"; "b"; "lms"] Sample.w0
  = (Raise (missing_bind_mount "/r/volumes/a"), Sample.w0).
Proof.
  apply (dc_command_first_missing (H:=Sample.quiet)
           (DevContext (H:=Sample.quiet) "/r")
           "run" ["-v"; "a"; "-v"; "b"; "lms"] ["a"; "b"] ["lms"]
           Sample.cfg Sample.w0 "a");
    vm_compute; reflexivity.
Defined.

Lemma run_invocation_witness :
  events (snd (run (H:=Sample.quiet) (DevContext (H:=Sample.quiet) "/r")
                 ["--volume=edx-platform"; "lms"; "bash"] Scenario.w_mounted))
  = [EvDockerCompose
       ["--project-name"; "tutor_dev"; "run";
        "--volume"; "/r/volumes/edx-platform:edx-platform";
        "--rm"; "-T"; "lms"; "bash"]].
Proof.
  refine (proj1 (run_invocation (H:=Sample.quiet)
                   (DevContext (H:=Sample.quiet) "/r")
                   ["--volume=edx-platform"; "lms"; "bash"]
                   ["edx-platform"] ["--rm"; "-T"; "lms"; "bash"]
                   Sample.cfg Sample.dev_runner Scenario.w_mounted _ _) _ _);
    vm_compute; reflexivity.
Defined.

Lemma runserver_announcement_witness :
  events (snd (runserver (H:=Sample.quiet) (DevContext (H:=Sample.quiet) "/r")
                 ["--no-deps"] "lms" Sample.w0))
  = [ EvEcho "The lms service will be available at http://lms.example.com:8000";
      EvDockerCompose
        ["--project-name"; "tutor_dev"; "run"; "--rm"; "--service-ports";
         "--no-deps"; "lms"] ].
Proof.
  rewrite (proj1 (runserver_announcement (H:=Sample.quiet)
                    (DevContext (H:=Sample.quiet) "/r") ["--no-deps"]
                    Sample.cfg Sample.w0 eq_refl)
             (VStr "lms.example.com") eq_refl).
  vm_compute. reflexivity.
Defined.

Lemma runserver_missing_host_witness :
  runserver (H:=Scenario.bare) (DevContext (H:=Scenario.bare) "/r")
    [] "lms" Sample.w0
  = (Raise (KeyError "LMS_HOST"), Sample.w0).
Proof.
  refine (proj1 (runserver_missing_host (H:=Scenario.bare)
                   (DevContext (H:=Scenario.bare) "/r") []
                   Scenario.cfg_bare Sample.w0 _) _);
    vm_compute; reflexivity.
Defined.

(* --------------------------------------------------------------------- *)
(* Strings, base names and the names of the backup                       *)
(* --------------------------------------------------------------------- *)

Lemma str_cons_app (c : ascii) (s t : string) :
  String c s +:+ t = String c (s +:+ t).
Proof. reflexivity. Qed.

Lemma str_app_assoc (s t u : string) : (s +:+ t) +:+ u = s +:+ t +:+ u.
Proof.
  induction s as [|c s IH]; [reflexivity|].
  by rewrite !str_cons_app, IH.
Qed.

Lemma str_length_app (s t : string) :
  String.length (s +:+ t) = (String.length s + String.length t)%nat.
Proof.
  induction s as [|c s IH]; [reflexivity|].
  rewrite str_cons_app. simpl. by rewrite IH.
Qed.

Lemma str_app_inj_r (s1 s2 t : string) : s1 +:+ t = s2 +:+ t → s1 = s2.
Proof.
  revert s2. induction s1 as [|c s1 IH]; intros [|d s2] Heq.
  - reflexivity.
  - apply (f_equal String.length) in Heq.
    rewrite !str_length_app in Heq. simpl in Heq. lia.
  - apply (f_equal String.length) in Heq.
    rewrite !str_length_app in Heq. simpl in Heq. lia.
  - rewrite !str_cons_app in Heq. injection Heq as -> Heq. f_equal. by apply IH.
Qed.

Lemma has_char_app (c : ascii) (s t : string) :
  has_char c (s +:+ t) = has_char c s || has_char c t.
Proof.
  induction s as [|d s IH]; [reflexivity|].
  rewrite str_cons_app. cbn [has_char]. by destruct (Ascii.eqb c d).
Qed.

(** [os.path.basename] splits a path at its last ["/"]: the path is a
    directory part, empty or ending in ["/"], followed by the base name,
    and the base name holds no ["/"]. *)
Theorem basename_splits (p : string) :
  ∃ d, p = d +:+ basename p
       ∧ (d = "" ∨ ∃ d', d = d' +:+ "/")
       ∧ has_char "/" (basename p) = false.
Proof.
  induction p as [|c rest (d & Hsplit & Hd & Hno)].
  - exists "". repeat split; auto.
  - cbn [basename]. destruct (has_char "/" rest) eqn:Hrest.
    + destruct Hd as [->|(d' & ->)].
      * change (rest = basename rest) in Hsplit.
        rewrite <- Hsplit in Hno. congruence.
      * exists (String c d' +:+ "/"). split; [|split; [right; by exists (String c d')|done]].
        change (String c rest = String c ((d' +:+ "/") +:+ basename rest)).
        f_equal. exact Hsplit.
    + destruct (Ascii.eqb c "/") eqn:Hc.
      * apply Ascii.eqb_eq in Hc as ->. exists "/".
        split; [reflexivity|]. split; [right; by exists ""|done].
      * exists "". split; [reflexivity|]. split; [by left|].
        cbn [has_char]. by rewrite Ascii.eqb_sym, Hc.
Qed.

(** Two runs of [backup] for the same host at different timestamps name
    their archives differently. *)
Theorem file_name_timestamps (host : value) (now1 now2 : string) :
  now1 ≠ now2 → file_name host now1 ≠ file_name host now2.
Proof.
  intros Hne Heq. unfold file_name in Heq.
  apply String.app_inj, (String.app_inj "_") in Heq.
  by apply str_app_inj_r in Heq.
Qed.

Lemma file_name_timestamps_witness :
  file_name (VStr "lms.example.com") "20240101_000000"
  ≠ file_name (VStr "lms.example.com") "20240101_000001".
Proof.
  apply (file_name_timestamps (VStr "lms.example.com")
           "20240101_000000" "20240101_000001").
  discriminate.
Defined.

Section EntryNames.
Context `{Externals}.

(** When [data_path] joins a relative last component with a ["/"] and the
    timestamp holds no ["/"], the six members of the archive are named
    [dump_<now>.mongodb], [dump_<now>.sql], [cms], [lms], [openedx-media]
    and [config.yml], and no two of them share a name. *)
Theorem backup_entry_names (root now : string) :
  (∀ c x, c ≠ "/"%char →
          ∃ d, data_path root [String c x] = d +:+ "/" +:+ String c x) →
  has_char "/" now = false →
  map basename (dirFiles root now)
  = [ "dump_" +:+ now +:+ ".mongodb"; "dump_" +:+ now +:+ ".sql";
      "cms"; "lms"; "openedx-media"; "config.yml" ]
  ∧ NoDup (map basename (dirFiles root now)).
Proof.
  intros Hjoin Hnow.
  assert (Hdump : ∀ c dir ext, c ≠ "/"%char → has_char "/" ext = false →
            basename
              (data_path root [String c dir +:+ "/dump_" +:+ now +:+ ext])
            = "dump_" +:+ now +:+ ext).
  { intros c dir ext Hc Hext.
    destruct (Hjoin c (dir +:+ "/dump_" +:+ now +:+ ext) Hc) as [d Hd].
    rewrite str_cons_app, Hd, <- str_cons_app.
    change (String c dir +:+ "/dump_" +:+ now +:+ ext)
      with (String c dir +:+ "/" +:+ "dump_" +:+ now +:+ ext).
    rewrite <- (str_app_assoc d "/" _), <- (str_app_assoc _ (String c dir) _).
    apply basename_join.
    rewrite !has_char_app, Hnow, Hext. reflexivity. }
  assert (Hplain : ∀ c x, c ≠ "/"%char → has_char "/" (String c x) = false →
            basename (data_path root [String c x]) = String c x).
  { intros c x Hc Hx. destruct (Hjoin c x Hc) as [d ->]. by apply basename_join. }
  assert (Hnames :
    map basename (dirFiles root now)
    = [ "dump_" +:+ now +:+ ".mongodb"; "dump_" +:+ now +:+ ".sql";
        "cms"; "lms"; "openedx-media"; "config.yml" ]).
  { unfold dirFiles, mongodb_dump_path, mysql_dump_path. simpl.
    change ("mongodb/dump_" +:+ now +:+ ".mongodb")
      with (String "m" "ongodb" +:+ "/dump_" +:+ now +:+ ".mongodb").
    change ("mysql/dump_" +:+ now +:+ ".sql")
      with (String "m" "ysql" +:+ "/dump_" +:+ now +:+ ".sql").
    rewrite !Hdump by (reflexivity || discriminate).
    rewrite !Hplain by (reflexivity || discriminate).
    by rewrite (basename_join (root_dir root) "config.yml"). }
  split; [exact Hnames|]. rewrite Hnames.
  assert (Hext : "dump_" +:+ now +:+ ".mongodb" ≠ "dump_" +:+ now +:+ ".sql").
  { intros Heq. apply (String.app_inj "dump_"), (String.app_inj now) in Heq.
    discriminate Heq. }
  repeat (apply NoDup_cons; split;
          [rewrite ?not_elem_of_cons;
           repeat split; try apply not_elem_of_nil; try exact Hext;
           try discriminate|]).
  apply NoDup_nil_2.
Qed.

End EntryNames.

Lemma backup_entry_names_witness :
  map basename (dirFiles (H:=Sample.quiet) "/r" "20240101_000000")
  = [ "dump_20240101_000000.mongodb"; "dump_20240101_000000.sql";
      "cms"; "lms"; "openedx-media"; "config.yml" ]
  ∧ NoDup (map basename (dirFiles (H:=Sample.quiet) "/r" "20240101_000000")).
Proof.
  apply (backup_entry_names (H:=Sample.quiet) "/r" "20240101_000000").
  - intros c x Hc. exists "/r/data".
    change (Sample.join2 "/r/data" (String c x)
            = "/r/data" +:+ "/" +:+ String c x).
    unfold Sample.join2. cbn [Sample.starts_with_slash].
    apply Ascii.eqb_neq in Hc. rewrite Hc. reflexivity.
  - reflexivity.
Defined.

(* --------------------------------------------------------------------- *)
(* Jobs of the development runner                                        *)
(* --------------------------------------------------------------------- *)

Lemma map_fixed {A} (f : A → A) (l : list A) :
  (∀ x, x ∈ l → f x = x) → map f l = l.
Proof.
  induction l as [|a l IH]; intros Hf; [reflexivity|]. simpl.
  rewrite Hf by apply list_elem_of_here. f_equal.
  apply IH. intros x Hx. by apply Hf, list_elem_of_further.
Qed.

Section DevJobs.
Context `{Externals}.

(** The job files of the development runner are already joined to the
    root, and [run_job] joins them to the root once more. When joining a
    path of the set to the root gives the path back, a job of the
    development runner is invoked with the existing service files, the
    project name, and then the existing job files in the order local, dev,
    local override, dev override. *)
Theorem dev_run_job_files (base : string) (cfg : Config)
  (r : ComposeJobRunner) (service command : string) (w : World) :
  DevJobRunner base cfg = Ok r →
  (∀ p, p ∈ docker_compose_job_files r → pathjoin base [p] = p) →
  events (snd (run_job r service command w))
  = events w
    ++ [EvDockerCompose
          (dash_f (existing (fs w) (docker_compose_files r))
           ++ ["--project-name"; project_name r]
           ++ dash_f (existing (fs w)
                        [ pathjoin base ["local"; "docker-compose.jobs.yml"];
                          pathjoin base ["dev"; "docker-compose.jobs.yml"];
                          pathjoin base
                            ["local"; "docker-compose.jobs.override.yml"];
                          pathjoin base
                            ["dev"; "docker-compose.jobs.override.yml"] ])
           ++ ["run"; "--rm"]
           ++ (if tty w then [] else ["-T"])
           ++ [service +:+ "-job"; "sh"; "-e"; "-c"; command])].
Proof.
  intros Hdev Hfix.
  assert (Hmap : map (λ p, pathjoin base [p]) (docker_compose_job_files r)
                 = docker_compose_job_files r) by apply map_fixed, Hfix.
  assert (Hr : base = root r
               ∧ docker_compose_job_files r
                 = [ pathjoin base ["local"; "docker-compose.jobs.yml"];
                     pathjoin base ["dev"; "docker-compose.jobs.yml"];
                     pathjoin base
                       ["local"; "docker-compose.jobs.override.yml"];
                     pathjoin base
                       ["dev"; "docker-compose.jobs.override.yml"] ]).
  { unfold DevJobRunner in Hdev.
    destruct (get_typed_str _ _) as [name|e]; [|discriminate].
    by injection Hdev as <-. }
  destruct Hr as [Hroot Hjobs].
  rewrite run_job_eq, docker_compose_eq. unfold compose_args, job_command.
  rewrite <- Hroot, Hmap, Hjobs. reflexivity.
Qed.

End DevJobs.

Lemma dev_run_job_files_witness :
  events (snd (run_job (H:=Sample.quiet) Sample.dev_runner "lms" "echo ok"
                 Scenario.w_local))
  = [EvDockerCompose
       ["-f"; "/r/local/docker-compose.yml";
        "-f"; "/r/local/docker-compose.override.yml";
        "--project-name"; "tutor_dev";
        "-f"; "/r/local/docker-compose.jobs.yml";
        "run"; "--rm"; "lms-job"; "sh"; "-e"; "-c"; "echo ok"]].
Proof.
  apply (dev_run_job_files (H:=Sample.quiet) "/r" Sample.cfg Sample.dev_runner
           "lms" "echo ok" Scenario.w_local).
  - vm_compute. reflexivity.
  - intros p Hp.
    repeat (apply elem_of_cons in Hp as [->|Hp]; [reflexivity|]).
    by apply elem_of_nil in Hp.
Defined.

(* --------------------------------------------------------------------- *)
(* backup: missing keys, cleanup, upload, closing                        *)
(* --------------------------------------------------------------------- *)

Section BackupMore.
Context `{Externals}.

(** A key that the configuration lacks is only found missing when the
    pipeline reaches it. Without [MYSQL_ROOT_PASSWORD], [backup] fails
    with its [KeyError] after the mongodb export has run and has been
    confirmed; without [LMS_HOST], after both exports have run and have
    been confirmed. In neither case is an archive opened. *)
Theorem backup_missing_key (context : Context) (now : string)
  (cfg : Config) (runner : ComposeJobRunner) (c : Z) (w : World) :
  config_load (ctx_root context) = Ok cfg →
  job_runner context cfg = Ok runner →
  let a1 := compose_args runner (fs w) (mongodb_command now) in
  let w1 :=
    log (EvEcho "Exported mongo databases successfully") (after_tool a1 w) in
  fst (run_docker_compose a1 (fs w)) = Ok c →
  (cfg !! "MYSQL_ROOT_PASSWORD" = None →
   backup context now w = (Raise (KeyError "MYSQL_ROOT_PASSWORD"), w1))
  ∧ (∀ pwd c2,
       cfg !! "MYSQL_ROOT_PASSWORD" = Some pwd →
       let a2 := compose_args runner (fs w1) (mysql_command pwd now) in
       fst (run_docker_compose a2 (fs w1)) = Ok c2 →
       cfg !! "LMS_HOST" = None →
       backup context now w
       = (Raise (KeyError "LMS_HOST"),
          log (EvEcho "Exported mysql databases successfully")
            (after_tool a2 w1))).
Proof.
  intros Hload Hrunner a1 w1 Hc.
  assert (Hdc1 : docker_compose runner (mongodb_command now) w
                 = (Ok c, after_tool a1 w)).
  { rewrite docker_compose_eq. fold a1. by rewrite Hc. }
  unfold backup.
  rewrite (bind_ok _ _ w w cfg) by (unfold of_result; by rewrite Hload).
  rewrite (bind_ok _ _ w w runner) by (unfold of_result; by rewrite Hrunner).
  rewrite (bind_ok _ _ _ _ _ Hdc1).
  rewrite (bind_ok _ _ _ w1 tt) by reflexivity.
  split.
  - intros Hpwd. apply bind_raise.
    unfold config_get, of_result, getitem. by rewrite Hpwd.
  - intros pwd c2 Hpwd.
    set (a2 := compose_args runner (fs w1) (mysql_command pwd now)).
    intros Hc2 Hhost.
    rewrite (bind_ok _ _ w1 w1 pwd)
      by (unfold config_get, of_result, getitem; by rewrite Hpwd).
    assert (Hdc2 : docker_compose runner (mysql_command pwd now) w1
                   = (Ok c2, after_tool a2 w1)).
    { rewrite docker_compose_eq. fold a2. by rewrite Hc2. }
    rewrite (bind_ok _ _ _ _ _ Hdc2).
    rewrite (bind_ok _ _ _
               (log (EvEcho "Exported mysql databases successfully")
                    (after_tool a2 w1)) tt) by reflexivity.
    apply bind_raise. unfold config_get, of_result, getitem. by rewrite Hhost.
Qed.

(** The removal of the dumps never fails with an [OSError]. When [sudo]
    cannot be started the error text is logged and the mysql dump is left
    alone; when the [sudo rm] has run, the mysql dump is removed exactly
    when it exists, and a failure of that removal is logged in the same
    way. *)
Theorem backup_cleanup_policy (mongo mysql : string) (w : World) :
  (∀ e, fst (backup_cleanup mongo mysql w) = Raise e → is_OSError e = false)
  ∧ (∀ enoent msg s,
       run_subprocess ["sudo"; "rm"; "-rf"; mongo] (fs w)
       = (Raise (OSError enoent msg), s) →
       backup_cleanup mongo mysql w
       = (Ok tt,
          mkWorld s (tty w)
            (events w
             ++ [EvSubprocess ["sudo"; "rm"; "-rf"; mongo];
                 EvEcho ("Delete mongodb or mysql dump files " +:+ msg
                         +:+ " are failed")])))
  ∧ (∀ s,
       run_subprocess ["sudo"; "rm"; "-rf"; mongo] (fs w) = (Ok tt, s) →
       (mysql ∉ s →
        backup_cleanup mongo mysql w
        = (Ok tt,
           mkWorld s (tty w)
             (events w ++ [EvSubprocess ["sudo"; "rm"; "-rf"; mongo]])))
       ∧ (mysql ∈ s → os_remove_error mysql s = None →
          backup_cleanup mongo mysql w
          = (Ok tt,
             mkWorld (s ∖ {[mysql]}) (tty w)
               (events w
                ++ [EvSubprocess ["sudo"; "rm"; "-rf"; mongo];
                    EvRemove mysql])))
       ∧ (∀ enoent msg,
            mysql ∈ s → os_remove_error mysql s = Some (OSError enoent msg) →
            backup_cleanup mongo mysql w
            = (Ok tt,
               mkWorld s (tty w)
                 (events w
                  ++ [EvSubprocess ["sudo"; "rm"; "-rf"; mongo];
                      EvRemove mysql;
                      EvEcho ("Delete mongodb or mysql dump files " +:+ msg
                              +:+ " are failed")])))).
Proof.
  split; [|split].
  - intros e. unfold backup_cleanup, try_except.
    destruct (bind _ _ w) as [[[]|e'] w'].
    + discriminate.
    + destruct (is_OSError e') eqn:E; simpl.
      * discriminate.
      * by intros [= <-].
  - intros enoent msg s Hrun.
    unfold backup_cleanup, try_except, bind, subprocess_run. rewrite Hrun.
    simpl. unfold echo_info, log. simpl. by rewrite <- app_assoc.
  - intros s Hrun. split; [|split].
    + intros Hno.
      unfold backup_cleanup, try_except, bind, subprocess_run. rewrite Hrun.
      unfold os_path_exists. simpl. by rewrite bool_decide_eq_false_2.
    + intros Hin Hrm.
      unfold backup_cleanup, try_except, bind, subprocess_run. rewrite Hrun.
      unfold os_path_exists. simpl. rewrite bool_decide_eq_true_2 by done.
      unfold os_remove. simpl. rewrite Hrm. unfold log, set_fs. simpl.
      by rewrite <- app_assoc.
    + intros enoent msg Hin Hrm.
      unfold backup_cleanup, try_except, bind, subprocess_run. rewrite Hrun.
      unfold os_path_exists. simpl. rewrite bool_decide_eq_true_2 by done.
      unfold os_remove. simpl. rewrite Hrm. simpl.
      unfold echo_info, log. simpl. by rewrite <- !app_assoc.
Qed.

Lemma backup_upload_enabled (cfg : Config) (bp name : string) (w : World)
  (v access secret bucket : value) :
  cfg !! "BACKUP_ENABLED" = Some v → truthy v = true →
  cfg !! "BACKUP_S3_ACCESS_KEY" = Some access →
  cfg !! "BACKUP_S3_SECRET_KEY" = Some secret →
  cfg !! "BACKUP_S3_BUCKET_NAME" = Some bucket →
  backup_upload cfg bp name w
  = try_except
      (s3_upload_file bp bucket name ;;
       echo_info ("Uploaded backup file " +:+ name +:+ " to S3 successfully") ;;
       e <- os_path_exists bp ;;
       if e then os_remove bp else ret tt)
      (λ e, is_FileNotFoundError e || is_NoCredentialsError e)
      (λ e, if is_FileNotFoundError e
            then echo_info ("The backup file " +:+ name +:+ " was not found")
            else echo_info "The S3 credential is not available")
      (log (EvBotoClient access secret) w).
Proof.
  intros Hon Hv Hacc Hsec Hbucket. unfold backup_upload. rewrite Hon, Hv.
  unfold bind at 1, config_get, of_result, getitem. rewrite Hacc.
  unfold bind at 1. rewrite Hsec. unfold bind at 1. rewrite Hbucket.
  reflexivity.
Qed.

(** With the upload switched on, a missing credential or bucket key makes
    the upload stage fail with the [KeyError] of the first key missing,
    in the order access key, secret key, bucket name; no client is
    created and the files are left as they were. *)
Theorem backup_upload_missing_key (cfg : Config) (bp name : string)
  (v : value) (w : World) :
  cfg !! "BACKUP_ENABLED" = Some v → truthy v = true →
  (cfg !! "BACKUP_S3_ACCESS_KEY" = None →
   backup_upload cfg bp name w = (Raise (KeyError "BACKUP_S3_ACCESS_KEY"), w))
  ∧ (is_Some (cfg !! "BACKUP_S3_ACCESS_KEY") →
     cfg !! "BACKUP_S3_SECRET_KEY" = None →
     backup_upload cfg bp name w
     = (Raise (KeyError "BACKUP_S3_SECRET_KEY"), w))
  ∧ (is_Some (cfg !! "BACKUP_S3_ACCESS_KEY") →
     is_Some (cfg !! "BACKUP_S3_SECRET_KEY") →
     cfg !! "BACKUP_S3_BUCKET_NAME" = None →
     backup_upload cfg bp name w
     = (Raise (KeyError "BACKUP_S3_BUCKET_NAME"), w)).
Proof.
  intros Hon Hv. unfold backup_upload. rewrite Hon, Hv.
  unfold bind, config_get, of_result, getitem.
  split; [|split].
  - by intros ->.
  - by intros [a ->] ->.
  - by intros [a ->] [s ->] ->.
Qed.

(** An upload that fails with anything but a missing file or missing
    credentials is not handled: the error leaves the upload stage, no
    confirmation is logged and the archive is not removed. *)
Theorem backup_upload_other_error (cfg : Config) (bp name : string)
  (v access secret bucket : value) (e : exn) (w : World) :
  cfg !! "BACKUP_ENABLED" = Some v → truthy v = true →
  cfg !! "BACKUP_S3_ACCESS_KEY" = Some access →
  cfg !! "BACKUP_S3_SECRET_KEY" = Some secret →
  cfg !! "BACKUP_S3_BUCKET_NAME" = Some bucket →
  upload_error bp bucket name (fs w) = Some e →
  is_FileNotFoundError e = false → is_NoCredentialsError e = false →
  backup_upload cfg bp name w
  = (Raise e,
     mkWorld (fs w) (tty w)
       (events w ++ [EvBotoClient access secret; EvUpload bp bucket name])).
Proof.
  intros Hon Hv Hacc Hsec Hbucket Hup Hf Hn.
  rewrite (backup_upload_enabled _ _ _ _ v access secret bucket) by done.
  unfold try_except, bind, s3_upload_file. simpl. rewrite Hup, Hf, Hn. simpl.
  unfold log. simpl. by rewrite <- app_assoc.
Qed.

(** The handler of the upload also covers the removal of the archive:
    when the upload has succeeded and the removal fails because the file
    is not found, the stage logs the upload as successful and then the
    archive as not found, and returns normally. *)
Theorem backup_upload_removal_not_found (cfg : Config) (bp name : string)
  (v access secret bucket : value) (msg : string) (w : World) :
  cfg !! "BACKUP_ENABLED" = Some v → truthy v = true →
  cfg !! "BACKUP_S3_ACCESS_KEY" = Some access →
  cfg !! "BACKUP_S3_SECRET_KEY" = Some secret →
  cfg !! "BACKUP_S3_BUCKET_NAME" = Some bucket →
  upload_error bp bucket name (fs w) = None →
  bp ∈ fs w →
  os_remove_error bp (fs w) = Some (OSError true msg) →
  backup_upload cfg bp name w
  = (Ok tt,
     mkWorld (fs w) (tty w)
       (events w
        ++ [EvBotoClient access secret;
            EvUpload bp bucket name;
            EvEcho ("Uploaded backup file " +:+ name +:+ " to S3 successfully");
            EvRemove bp;
            EvEcho ("The backup file " +:+ name +:+ " was not found")])).
Proof.
  intros Hon Hv Hacc Hsec Hbucket Hup Hin Hrm.
  rewrite (backup_upload_enabled _ _ _ _ v access secret bucket) by done.
  unfold try_except, bind, s3_upload_file, echo_info, os_path_exists, os_remove.
  simpl. rewrite Hup. simpl. rewrite bool_decide_eq_true_2 by done.
  simpl. rewrite Hrm. simpl. unfold log. simpl. by rewrite <- !app_assoc.
Qed.

End BackupMore.

Lemma backup_missing_key_witness :
  backup (H:=Scenario.bare) (DevContext (H:=Scenario.bare) "/r")
    "20240101_000000" Sample.w0
  = (Raise (KeyError "MYSQL_ROOT_PASSWORD"),
     mkWorld ∅ true
       [ EvDockerCompose
           ["--project-name"; "tutor_dev"; "exec"; "mongodb"; "mongodump";
            "--out=/data/db/dump_20240101_000000.mongodb"];
         EvEcho "Exported mongo databases successfully" ]).
Proof.
  refine (proj1 (backup_missing_key (H:=Scenario.bare)
                   (DevContext (H:=Scenario.bare) "/r") "20240101_000000"
                   Scenario.cfg_bare Scenario.bare_dev_runner 0%Z Sample.w0
                   _ _ _) _).
  - reflexivity.
  - vm_compute. reflexivity.
  - reflexivity.
  - vm_compute. reflexivity.
Defined.

Lemma backup_cleanup_policy_witness :
  backup_cleanup (H:=Scenario.no_sudo)
    "/r/data/mongodb/dump_20240101_000000.mongodb"
    "/r/data/mysql/dump_20240101_000000.sql" Scenario.w_dump
  = (Ok tt,
     mkWorld {["/r/data/mysql/dump_20240101_000000.sql"]} true
       [ EvSubprocess
           ["sudo"; "rm"; "-rf"; "/r/data/mongodb/dump_20240101_000000.mongodb"];
         EvEcho
           "Delete mongodb or mysql dump files No such file or directory are failed" ])
  ∧ backup_cleanup (H:=Sample.quiet)
      "/r/data/mongodb/dump_20240101_000000.mongodb"
      "/r/data/mysql/dump_20240101_000000.sql" Scenario.w_dump
    = (Ok tt,
       mkWorld ({["/r/data/mysql/dump_20240101_000000.sql"]}
                ∖ {["/r/data/mysql/dump_20240101_000000.sql"]}) true
         [ EvSubprocess
             ["sudo"; "rm"; "-rf";
              "/r/data/mongodb/dump_20240101_000000.mongodb"];
           EvRemove "/r/data/mysql/dump_20240101_000000.sql" ]).
Proof.
  split.
  - refine (proj1 (proj2 (backup_cleanup_policy (H:=Scenario.no_sudo)
                            "/r/data/mongodb/dump_20240101_000000.mongodb"
                            "/r/data/mysql/dump_20240101_000000.sql"
                            Scenario.w_dump))
              true "No such file or directory" _ _).
    reflexivity.
  - refine (proj1 (proj2 (proj2 (proj2 (backup_cleanup_policy (H:=Sample.quiet)
                            "/r/data/mongodb/dump_20240101_000000.mongodb"
                            "/r/data/mysql/dump_20240101_000000.sql"
                            Scenario.w_dump))
                     _ _)) _ _).
    + reflexivity.
    + by apply elem_of_singleton.
    + reflexivity.
Defined.

Lemma backup_upload_missing_key_witness :
  backup_upload (H:=Sample.quiet) Scenario.cfg_s3_no_keys
    "/r/a.tar.gz" "a.tar.gz" Sample.w_archive
  = (Raise (KeyError "BACKUP_S3_ACCESS_KEY"), Sample.w_archive).
Proof.
  refine (proj1 (backup_upload_missing_key (H:=Sample.quiet)
                   Scenario.cfg_s3_no_keys "/r/a.tar.gz" "a.tar.gz"
                   (VBool true) Sample.w_archive _ _) _);
    vm_compute; reflexivity.
Defined.

Lemma backup_upload_other_error_witness :
  backup_upload (H:=Scenario.s3_denied) Sample.cfg_s3
    "/r/a.tar.gz" "a.tar.gz" Sample.w_archive
  = (Raise (OtherError "ClientError: AccessDenied"),
     mkWorld {["/r/a.tar.gz"]} true
       [ EvBotoClient (VStr "AK") (VStr "SK");
         EvUpload "/r/a.tar.gz" (VStr "bucket") "a.tar.gz" ]).
Proof.
  apply (backup_upload_other_error (H:=Scenario.s3_denied) Sample.cfg_s3
           "/r/a.tar.gz" "a.tar.gz" (VBool true)
           (VStr "AK") (VStr "SK") (VStr "bucket")
           (OtherError "ClientError: AccessDenied") Sample.w_archive);
    vm_compute; reflexivity.
Defined.

Lemma backup_upload_removal_not_found_witness :
  backup_upload (H:=Scenario.vanishing) Sample.cfg_s3
    "/r/a.tar.gz" "a.tar.gz" Sample.w_archive
  = (Ok tt,
     mkWorld {["/r/a.tar.gz"]} true
       [ EvBotoClient (VStr "AK") (VStr "SK");
         EvUpload "/r/a.tar.gz" (VStr "bucket") "a.tar.gz";
         EvEcho "Uploaded backup file a.tar.gz to S3 successfully";
         EvRemove "/r/a.tar.gz";
         EvEcho "The backup file a.tar.gz was not found" ]).
Proof.
  apply (backup_upload_removal_not_found (H:=Scenario.vanishing) Sample.cfg_s3
           "/r/a.tar.gz" "a.tar.gz" (VBool true)
           (VStr "AK") (VStr "SK") (VStr "bucket")
           "No such file or directory" Sample.w_archive);
    vm_compute; reflexivity.
Defined.

Section Closing.
Context `{Externals}.

Lemma closes_bind {A B} (bp : string) (m : M A) (k : A → M B) :
  emits (λ e, is_add e = false) m → (∀ a, closes bp (k a)) →
  closes bp (bind m k).
Proof.
  intros Hm Hk w. unfold bind. destruct (Hm w) as (l0 & E0 & F0).
  destruct (m w) as [[a|e] w1]; simpl in *.
  - destruct (Hk a w1) as (l & E & [F|(l' & ->)]).
    + exists (l0 ++ l). rewrite E, E0, app_assoc.
      split; [done|]. left. by apply Forall_app.
    + exists (l0 ++ l' ++ [EvTarClose bp]). rewrite E, E0, <- !app_assoc.
      split; [done|]. right. exists (l0 ++ l'). by rewrite <- app_assoc.
  - exists l0. split; [done|]. by left.
Qed.

Lemma closes_known {A B} (bp : string) (a : A) (k : A → M B) :
  closes bp (k a) → closes bp (bind (of_result (Ok a)) k).
Proof. intros Hk w. exact (Hk w). Qed.

Lemma closes_finally {A} (bp : string) (m : M A) :
  emits (λ _, True) m → closes bp (finally m (tar_close bp)).
Proof.
  intros Hm w. unfold finally, tar_close. destruct (Hm w) as (l & E & _).
  destruct (m w) as [r w1]; simpl in *.
  exists (l ++ [EvTarClose bp]). rewrite E, <- app_assoc.
  split; [done|]. right. by exists l.
Qed.

(** However a run of [backup] ends, by returning or by an error of any
    stage, once a member has been added to the archive the last thing the
    pipeline does is close that archive. *)
Theorem backup_closes_archive (context : Context) (now : string)
  (cfg : Config) (host : value) (w : World) :
  config_load (ctx_root context) = Ok cfg →
  cfg !! "LMS_HOST" = Some host →
  ∃ l, events (snd (backup context now w)) = events w ++ l
       ∧ (Forall (λ e, is_add e = false) l
          ∨ ∃ l', l = l'
                    ++ [EvTarClose
                          (data_path (ctx_root context)
                             ["backup";
                              str host +:+ "_" +:+ now +:+ ".tar.gz"])]).
Proof.
  intros Hload Hhost. revert w.
  change (closes (backup_path (ctx_root context) (file_name host now))
            (backup context now)).
  unfold backup. rewrite Hload. apply closes_known.
  apply closes_bind; [emits_tac|]. intros runner.
  apply closes_bind; [emits_tac|]. intros _.
  apply closes_bind; [emits_tac|]. intros _.
  apply closes_bind; [emits_tac|]. intros pwd.
  apply closes_bind; [emits_tac|]. intros _.
  apply closes_bind; [emits_tac|]. intros _.
  unfold config_get at 1, getitem. rewrite Hhost. apply closes_known.
  apply closes_bind; [emits_tac|]. intros _.
  apply closes_bind; [emits_tac|]. intros _.
  apply closes_finally.
  repeat first
    [ apply emits_backup_cleanup; intros
    | apply emits_backup_upload; intros
    | emits_step ]; done.
Qed.

End Closing.

Lemma backup_closes_archive_witness :
  ∃ l, events (snd (backup (H:=Scenario.s3_denied)
                      (DevContext (H:=Scenario.s3_denied) "/r")
                      "20240101_000000" Sample.w0))
       = events Sample.w0 ++ l
       ∧ (Forall (λ e, is_add e = false) l
          ∨ ∃ l', l = l'
                    ++ [EvTarClose
                          "/r/data/backup/lms.example.com_20240101_000000.tar.gz"]).
Proof.
  apply (backup_closes_archive (H:=Scenario.s3_denied)
           (DevContext (H:=Scenario.s3_denied) "/r") "20240101_000000"
           Sample.cfg_s3 (VStr "lms.example.com") Sample.w0).
  - reflexivity.
  - vm_compute. reflexivity.
Defined.
